(** * curtin: mkfs command builder and gpg key resolver

    A shallow embedding of [curtin/block/mkfs.py] and [curtin/gpg.py].

    Python values are modelled by Rocq data (strings as [string], [None] as
    [option], dict literals as association lists in source order), raised
    exceptions by the left summand of a sum, and the calls into [curtin.util],
    [os.path] and the logger by a small state-and-error monad that threads the
    outside world and records every call in a trace. *)

From Stdlib Require Import String Ascii List Bool Arith Lia.
From Stdlib Require Import DecimalString.
Import ListNotations.
Open Scope list_scope.
Open Scope string_scope.

Set Implicit Arguments.

(* ================================================================== *)
(** * Python values *)
(* ================================================================== *)

Module Py.

(** The exceptions the two modules can raise or meet.  The argument is the
    text [str(e)] gives. *)
Inductive exn : Type :=
| ValueError (msg : string)
| TypeError (msg : string)
| AttributeError (msg : string)
| ProcessExecutionError (descr : string).

Definition result (A : Type) : Type := (exn + A)%type.

(** The values that reach a [%] format in the sources. *)
Inductive value : Type :=
| VStr (s : string)
| VInt (n : nat)
| VNone.

Definition nl : string := String (ascii_of_nat 10) EmptyString.
Definition dquote : string := String (ascii_of_nat 34) EmptyString.

(** [str(v)] *)
Definition str (v : value) : string :=
  match v with
  | VStr s => s
  | VInt n => NilZero.string_of_uint (Nat.to_uint n)
  | VNone => "None"
  end.

(** [None] stays [None] under [%s]; an optional string as a value. *)
Definition of_opt (o : option string) : value :=
  match o with
  | Some s => VStr s
  | None => VNone
  end.

(** [fmt % args], for the conversions the sources use ([%s], and [%%]).
    [args] is the tuple on the right of [%]; a right operand that is not a
    tuple is the one-element list. *)
Fixpoint format (fmt : string) (args : list value) : result string :=
  match fmt with
  | EmptyString =>
      match args with
      | [] => inr EmptyString
      | _ :: _ =>
          inl (TypeError
                 "not all arguments converted during string formatting")
      end
  | String "%" rest =>
      match rest with
      | EmptyString => inl (ValueError "incomplete format")
      | String "s" rest' =>
          match args with
          | [] => inl (TypeError "not enough arguments for format string")
          | a :: args' =>
              match format rest' args' with
              | inr r => inr (str a ++ r)
              | inl e => inl e
              end
          end
      | String "%" rest' =>
          match format rest' args with
          | inr r => inr (String "%" r)
          | inl e => inl e
          end
      | String _ _ => inl (ValueError "unsupported format character")
      end
  | String c rest =>
      match format rest args with
      | inr r => inr (String c r)
      | inl e => inl e
      end
  end.

(** Membership of a character in a string used as a character set. *)
Fixpoint mem (c : ascii) (chars : string) : bool :=
  match chars with
  | EmptyString => false
  | String d rest => Ascii.eqb c d || mem c rest
  end.

(** [s.lstrip(chars)] *)
Fixpoint lstrip (chars : string) (s : string) : string :=
  match s with
  | EmptyString => EmptyString
  | String c rest => if mem c chars then lstrip chars rest else s
  end.

(** [s.rstrip(chars)] *)
Fixpoint rstrip (chars : string) (s : string) : string :=
  match s with
  | EmptyString => EmptyString
  | String c rest =>
      match rstrip chars rest with
      | EmptyString => if mem c chars then EmptyString else String c EmptyString
      | String _ _ as r => String c r
      end
  end.

(** [s.strip(chars)] *)
Definition strip (chars : string) (s : string) : string :=
  rstrip chars (lstrip chars s).

(** [string.ascii_letters] *)
Definition ascii_letters : string :=
  "abcdefghijklmnopqrstuvwxyzABCDEFGHIJKLMNOPQRSTUVWXYZ".

(** [s[:n]] for [n >= 0] *)
Definition slice_to (n : nat) (s : string) : string := substring 0 n s.

(** Truth value of an optional string: [None] and the empty string are
    false. *)
Definition truthy (o : option string) : bool :=
  match o with
  | None => false
  | Some EmptyString => false
  | Some (String _ _) => true
  end.

(** A dict literal, in source order. *)
Definition dict (V : Type) : Type := list (string * V).

(** [d.get(k)] *)
Fixpoint get {V : Type} (d : dict V) (k : string) : option V :=
  match d with
  | [] => None
  | (k', v) :: rest => if String.eqb k k' then Some v else get rest k
  end.

(** [d.get(k, default)] *)
Definition get_default {V : Type} (d : dict V) (k : string) (default : V) : V :=
  match get d k with
  | Some v => v
  | None => default
  end.

(** [x in l] for a list of strings *)
Definition contains (l : list string) (x : string) : bool :=
  existsb (String.eqb x) l.

End Py.

Import Py.

(* ================================================================== *)
(** * curtin/block/mkfs.py: the tables and [get_flag_mapping] *)
(* ================================================================== *)

Definition mkfs_commands : dict string :=
  [ ("btrfs", "mkfs.btrfs");
    ("ext2", "mkfs.ext2");
    ("ext3", "mkfs.ext3");
    ("ext4", "mkfs.ext4");
    ("fat", "mkfs.fat");
    ("fat12", "mkfs.fat");
    ("fat16", "mkfs.fat");
    ("fat32", "mkfs.fat");
    ("jfs", "jfs_mkfs");
    ("ntfs", "mkntfs");
    ("reiserfs", "mkfs.reiserfs");
    ("swap", "mkswap");
    ("xfs", "mkfs.xfs") ].

Definition specific_to_family : dict string :=
  [ ("ext2", "ext");
    ("ext3", "ext");
    ("ext4", "ext");
    ("fat12", "fat");
    ("fat16", "fat");
    ("fat32", "fat") ].

Definition label_length_limits : dict nat :=
  [ ("btrfs", 256);
    ("ext", 16);
    ("fat", 11);
    ("jfs", 16);
    ("ntfs", 32);
    ("reiserfs", 16);
    ("swap", 15);
    ("xfs", 12) ].

Definition family_flag_mappings : dict (dict string) :=
  [ ("label", [ ("btrfs", "--label");
                ("ext", "-L");
                ("fat", "-n");
                ("jfs", "-L");
                ("ntfs", "--label");
                ("reiserfs", "--label");
                ("swap", "--label");
                ("xfs", "-L") ]);
    ("uuid", [ ("btrfs", "--uuid");
               ("ext", "-U");
               ("reiserfs", "--uuid");
               ("swap", "--uuid") ]);
    ("force", [ ("btrfs", "--force");
                ("ext", "-F");
                ("ntfs", "--force");
                ("reiserfs", "-f");
                ("swap", "--force");
                ("xfs", "-f") ]);
    ("fatsize", [ ("fat", "-F") ]);
    ("quiet", [ ("ext", "-q");
                ("ntfs", "-q");
                ("reiserfs", "-q");
                ("xfs", "--quiet") ]) ].

(** [get_flag_mapping(flag_name, fs_family, param=None, strict=False)].

    In the strict branch the source writes
    [ValueError("flag '%s' not supported by fs family '%s'" % flag_name, fs_family)]:
    [%] binds tighter than the comma, so the format is applied to [flag_name]
    alone and [fs_family] would be a second argument of [ValueError]. *)
Definition get_flag_mapping (flag_name fs_family : string)
    (param : option string) (strict : bool) : result (list string) :=
  match get family_flag_mappings flag_name with
  | None =>
      match format "unsupported flag '%s'" [VStr flag_name] with
      | inr msg => inl (ValueError msg)
      | inl e => inl e
      end
  | Some flag_sym_families =>
      match get flag_sym_families fs_family with
      | None =>
          if strict then
            match format "flag '%s' not supported by fs family '%s'"
                         [VStr flag_name] with
            | inr msg => inl (ValueError msg)
            | inl e => inl e
            end
          else inr []
      | Some flag_sym =>
          match param with
          | Some p => inr [flag_sym; p]
          | None => inr [flag_sym]
          end
      end
  end.

(** The 33 blanks that indent the second line of the label-length message
    in the source. *)
Definition blanks33 : string := "                                 ".

(* ================================================================== *)
(** * The outside world and the monad of the two modules *)
(* ================================================================== *)

(** What one external process run gives back to [util.subp]: the captured
    output pair, or the text of the [ProcessExecutionError] it raises. *)
Inductive completed : Type :=
| Exited (out err : string)
| Failed (error : string).

(** The collaborators of [curtin.util], [os.path] and the log, none of which
    is part of the two modules.  They are taken as parameters over an
    arbitrary world [W]: [util.subp(args, capture=True)] may change the world
    and either returns [(out, err)] or raises [ProcessExecutionError]; the
    other three only read the world. *)
Record Env (W : Type) : Type := {
  path_exists : string -> W -> bool;          (* os.path.exists *)
  which : string -> W -> option string;       (* util.which *)
  lsb_codename : W -> string;                 (* util.lsb_release()['codename'] *)
  subp : list string -> W -> completed * W    (* util.subp(..., capture=True) *)
}.

(** Every call that leaves the module, with what it returned. *)
Inductive event : Type :=
| EvExists (path : string) (r : bool)
| EvWhich (prog : string) (r : option string)
| EvLsbRelease (codename : string)
| EvSubp (args : list string) (r : completed)
| EvLog (level : string) (fmt : string) (args : list value).

Section Program.

Variable W : Type.
Variable env : Env W.

Record state : Type := { world : W; trace : list event }.

(** A computation either raises or returns, and leaves a state.  The trace
    grows at its end, so it reads in the order of the calls. *)
Definition M (A : Type) : Type := state -> result A * state.

Definition ret {A : Type} (a : A) : M A := fun s => (inr a, s).

Definition raise {A : Type} (e : exn) : M A := fun s => (inl e, s).

Definition bind {A B : Type} (m : M A) (k : A -> M B) : M B :=
  fun s =>
    match m s with
    | (inr a, s') => k a s'
    | (inl e, s') => (inl e, s')
    end.

Definition emit (ev : event) : M unit :=
  fun s => (inr tt, {| world := world s; trace := (trace s ++ [ev])%list |}).

(** A pure step that may raise. *)
Definition lift {A : Type} (r : result A) : M A :=
  match r with
  | inr a => ret a
  | inl e => raise e
  end.

(** [try: m  except ...: handler] where [handler] re-raises what it does not
    catch. *)
Definition try_except {A : Type} (m : M A) (handler : exn -> M A) : M A :=
  fun s =>
    match m s with
    | (inr a, s') => (inr a, s')
    | (inl e, s') => handler e s'
    end.

(** [try: m  finally: cleanup]: [cleanup] runs on every exit of [m]; what
    [m] returned or raised stands unless [cleanup] itself raises. *)
Definition try_finally {A : Type} (m : M A) (cleanup : M unit) : M A :=
  fun s =>
    match m s with
    | (r, s') =>
        match cleanup s' with
        | (inr _, s'') => (r, s'')
        | (inl e, s'') => (inl e, s'')
        end
    end.

End Program.

Arguments ret {W A} a.
Arguments raise {W A} e.
Arguments bind {W A B} m k.
Arguments emit {W} ev.
Arguments lift {W A} r.
Arguments try_except {W A} m handler.
Arguments try_finally {W A} m cleanup.

Declare Scope py_scope.
Delimit Scope py_scope with py.
Notation "x <- m ;; k" := (bind m (fun x => k))
  (at level 61, m at next level, right associativity) : py_scope.
Notation "m ;;; k" := (bind m (fun _ => k))
  (at level 61, right associativity) : py_scope.
Open Scope py_scope.

Section Collaborators.

Variable W : Type.
Variable env : Env W.

Let record (ev : event) (s : state W) : state W :=
  {| world := world s; trace := (trace s ++ [ev])%list |}.

(** [os.path.exists(path)] *)
Definition os_path_exists (path : string) : M W bool :=
  fun s =>
    let r := path_exists env path (world s) in
    (inr r, record (EvExists path r) s).

(** [util.which(program)] *)
Definition util_which (program : string) : M W (option string) :=
  fun s =>
    let r := which env program (world s) in
    (inr r, record (EvWhich program r) s).

(** [util.lsb_release()['codename']] *)
Definition util_lsb_release_codename : M W string :=
  fun s =>
    let r := lsb_codename env (world s) in
    (inr r, record (EvLsbRelease r) s).

(** [util.subp(args, capture=True)] *)
Definition util_subp (args : list string) : M W (string * string) :=
  fun s =>
    match subp env args (world s) with
    | (Exited out err as r, w') =>
        (inr (out, err),
         {| world := w'; trace := (trace s ++ [EvSubp args r])%list |})
    | (Failed error as r, w') =>
        (inl (ProcessExecutionError error),
         {| world := w'; trace := (trace s ++ [EvSubp args r])%list |})
    end.

(** [LOG.debug], [LOG.warn], [LOG.exception]: recorded, never raising. *)
Definition LOG (level fmt : string) (args : list value) : M W unit :=
  emit (EvLog level fmt args).

(** [raise ValueError(fmt % args)] *)
Definition raise_ValueError {A : Type} (fmt : string) (args : list value)
  : M W A :=
  msg <- lift (format fmt args) ;;
  raise (ValueError msg).

(* ================================================================ *)
(** * curtin/block/mkfs.py: [mkfs] *)
(* ================================================================ *)

(** The message of the label-length error: the source breaks the literal
    with a backslash at the end of the line, which keeps the 33 blanks
    that indent the next line. *)
Definition label_too_long_fmt : string :=
  "length of fs label for '%s' exceeds max "
  ++ blanks33
  ++ "allowed for fstype '%s'. max is '%s'".

(** [mkfs(path, fstype, strict=False, label=None, uuid=None, force=False)] *)
Definition mkfs (path : option string) (fstype : string) (strict : bool)
    (label uuid : option string) (force : bool) : M W unit :=
  match path with
  | None => raise_ValueError "invalid block dev path '%s'" [of_opt path]
  | Some path =>
  path_found <- os_path_exists path ;;
  if negb path_found then
    raise_ValueError "'%s': no such file or directory" [VStr path]
  else
  let fs_family := get_default specific_to_family fstype fstype in
  match get mkfs_commands fstype with
  | None | Some EmptyString =>
      raise_ValueError "unsupported fs type '%s'" [VStr fstype]
  | Some mkfs_cmd =>
  tool <- util_which mkfs_cmd ;;
  match tool with
  | None =>
      raise_ValueError "need '%s' but it could not be found" [VStr mkfs_cmd]
  | Some _ =>
  let cmd := [mkfs_cmd] in
  cmd <- (if force then
            codename <- util_lsb_release_codename ;;
            if negb (String.eqb codename "precise"
                     && String.eqb fstype "btrfs") then
              flag <- lift (get_flag_mapping "force" fs_family None strict) ;;
              ret (cmd ++ flag)%list
            else ret cmd
          else ret cmd) ;;
  cmd <- match label with
         | Some label =>
             match get label_length_limits fs_family with
             | None =>
                 (* [len(label) > None] *)
                 raise (TypeError
                   "'>' not supported between instances of 'int' and 'NoneType'")
             | Some limit =>
                 label <- (if Nat.ltb limit (String.length label) then
                             if strict then
                               raise_ValueError label_too_long_fmt
                                 [VStr path; VStr fstype; VInt limit]
                             else ret (slice_to limit label)
                           else ret label) ;;
                 flag <- lift (get_flag_mapping "label" fs_family
                                 (Some label) strict) ;;
                 ret (cmd ++ flag)%list
             end
         | None => ret cmd
         end ;;
  cmd <- match uuid with
         | Some uuid =>
             flag <- lift (get_flag_mapping "uuid" fs_family
                             (Some uuid) strict) ;;
             ret (cmd ++ flag)%list
         | None => ret cmd
         end ;;
  cmd <- (if String.eqb fs_family "fat" then
            let fat_size := strip ascii_letters fstype in
            if contains ["12"; "16"; "32"] fat_size then
              flag <- lift (get_flag_mapping "fatsize" fs_family
                              (Some fat_size) strict) ;;
              ret (cmd ++ flag)%list
            else ret cmd
          else ret cmd) ;;
  let cmd := (cmd ++ [path])%list in
  util_subp cmd ;;;
  ret tt
  end
  end
  end.

(** [mkfs_from_config(path, info, strict=False)], with [info] the storage
    configuration of one filesystem. *)
Definition mkfs_from_config (path : option string) (info : dict string)
    (strict : bool) : M W unit :=
  match get info "fstype" with
  | None => raise (ValueError "fstype must be specified")
  | Some fstype =>
      mkfs path fstype strict (get info "label") (get info "uuid") true
  end.

(* ================================================================ *)
(** * curtin/gpg.py *)
(* ================================================================ *)

(** [gpg_export_armour(key)] *)
Definition gpg_export_armour (key : string) : M W (option string) :=
  try_except
    (r <- util_subp ["gpg"; "--export"; "--armour"; key] ;;
     ret (Some (fst r)))
    (fun e =>
       match e with
       | ProcessExecutionError error =>
           LOG "debug"
               ("Failed to export armoured key " ++ dquote ++ "%s"
                ++ dquote ++ ": %s")
               [VStr key; VStr error] ;;;
           ret None
       | _ => raise e
       end).

(** [gpg_recv_key(key, keyserver)] *)
Definition gpg_recv_key (key keyserver : string) : M W unit :=
  LOG "debug" ("Receive gpg key " ++ dquote ++ "%s" ++ dquote)
      [VStr key] ;;;
  try_except
    (util_subp ["gpg"; "--keyserver"; keyserver; "--recv"; key] ;;;
     ret tt)
    (fun e =>
       match e with
       | ProcessExecutionError error =>
           raise_ValueError
             ("Failed to import key " ++ dquote ++ "%s" ++ dquote
              ++ " from server " ++ dquote ++ "%s" ++ dquote
              ++ " - error %s")
             [VStr key; VStr keyserver; VStr error]
       | _ => raise e
       end).

(** [gpg_delete_key(key)] *)
Definition gpg_delete_key (key : string) : M W unit :=
  try_except
    (util_subp ["gpg"; "--batch"; "--yes"; "--delete-keys"; key] ;;;
     ret tt)
    (fun e =>
       match e with
       | ProcessExecutionError error =>
           LOG "warn"
               ("Failed delete key " ++ dquote ++ "%s" ++ dquote ++ ": %s")
               [VStr key; VStr error]
       | _ => raise e
       end).

(** [armour.rstrip('\n')], on a value that may be [None] *)
Definition rstrip_method (armour : option string) (chars : string)
  : M W string :=
  match armour with
  | Some text => ret (rstrip chars text)
  | None =>
      raise (AttributeError "'NoneType' object has no attribute 'rstrip'")
  end.

(** [gpg_getkeybyid(keyid, keyserver='keyserver.ubuntu.com')] *)
Definition gpg_getkeybyid (keyid keyserver : string) : M W string :=
  armour <- gpg_export_armour keyid ;;
  armour <- (if negb (truthy armour) then
               try_finally
                 (try_except
                    (gpg_recv_key keyid keyserver ;;;
                     gpg_export_armour keyid)
                    (fun e =>
                       match e with
                       | ValueError _ =>
                           LOG "exception" "Failed to obtain gpg key %s"
                               [VStr keyid] ;;;
                           raise e
                       | _ => raise e
                       end))
                 (gpg_delete_key keyid)
             else ret armour) ;;
  rstrip_method armour nl.

Definition default_keyserver : string := "keyserver.ubuntu.com".

End Collaborators.

Arguments mkfs {W} env path fstype strict label uuid force.
Arguments mkfs_from_config {W} env path info strict.
Arguments gpg_export_armour {W} env key.
Arguments gpg_recv_key {W} env key keyserver.
Arguments gpg_delete_key {W} env key.
Arguments gpg_getkeybyid {W} env keyid keyserver.

(* ================================================================== *)
(** * Running a computation, and a scripted world to run it in *)
(* ================================================================== *)

(** Run from a world with an empty trace. *)
Definition run {W A : Type} (m : M W A) (w : W) : result A * state W :=
  m {| world := w; trace := [] |}.

Definition outcome {W A : Type} (m : M W A) (w : W) : result A :=
  fst (run m w).

Definition events {W A : Type} (m : M W A) (w : W) : list event :=
  trace (snd (run m w)).

(** The argument vectors handed to [util.subp], in order. *)
Fixpoint commands (tr : list event) : list (list string) :=
  match tr with
  | [] => []
  | EvSubp args _ :: rest => args :: commands rest
  | _ :: rest => commands rest
  end.

(** The calls that start or look for an external program: [util.which],
    [util.lsb_release] and [util.subp]. *)
Definition is_external (ev : event) : bool :=
  match ev with
  | EvWhich _ _ | EvLsbRelease _ | EvSubp _ _ => true
  | EvExists _ _ | EvLog _ _ _ => false
  end.

(** A world that is the list of the results the next process runs will have;
    the paths and tools that exist and the release codename are fixed. *)
Definition scripted (paths tools : list string) (codename : string)
  : Env (list completed) :=
  {| path_exists := fun p _ => contains paths p;
     which := fun t _ => if contains tools t then Some ("/sbin/" ++ t) else None;
     lsb_codename := fun _ => codename;
     subp := fun _ w =>
               match w with
               | r :: rest => (r, rest)
               | [] => (Failed "no process result left", [])
               end |}.

(** The three argument vectors of [curtin/gpg.py]. *)
Definition export_cmd (key : string) : list string :=
  ["gpg"; "--export"; "--armour"; key].
Definition recv_cmd (key keyserver : string) : list string :=
  ["gpg"; "--keyserver"; keyserver; "--recv"; key].
Definition delete_cmd (key : string) : list string :=
  ["gpg"; "--batch"; "--yes"; "--delete-keys"; key].

(** Does the family have a token for the flag in [family_flag_mappings]? *)
Definition supports (flag_name fs_family : string) : bool :=
  match get family_flag_mappings flag_name with
  | Some flag_sym_families =>
      match get flag_sym_families fs_family with
      | Some _ => true
      | None => false
      end
  | None => false
  end.

(** [not armour] in [gpg_getkeybyid], on what the first export run gave:
    a failed run makes [armour] [None], and an empty output is false too. *)
Definition absent (r : completed) : bool :=
  match r with
  | Failed _ => true
  | Exited out _ => negb (truthy (Some out))
  end.

Definition exited (r : completed) : bool :=
  match r with
  | Exited _ _ => true
  | Failed _ => false
  end.

(** What [util.subp] makes of a process result. *)
Definition subp_outcome (r : completed) : result unit :=
  match r with
  | Exited _ _ => inr tt
  | Failed error => inl (ProcessExecutionError error)
  end.

(** Sequencing of pure steps that may raise. *)
Definition and_then {A B : Type} (r : result A) (k : A -> result B) : result B :=
  match r with
  | inr a => k a
  | inl e => inl e
  end.

(** The argument vector [mkfs] has assembled when it reaches [util.subp], as
    a function of the release codename it was told: the steps of [mkfs]
    between the tool lookup and the process run, without the monad.  Lemma
    [mkfs_run] below shows that [mkfs] computes exactly this. *)
Definition mkfs_argv (codename path fstype mkfs_cmd : string) (strict : bool)
    (label uuid : option string) (force : bool) : result (list string) :=
  let fs_family := get_default specific_to_family fstype fstype in
  let cmd := [mkfs_cmd] in
  and_then
    (if force then
       if negb (String.eqb codename "precise" && String.eqb fstype "btrfs") then
         and_then (get_flag_mapping "force" fs_family None strict)
                  (fun flag => inr (cmd ++ flag)%list)
       else inr cmd
     else inr cmd)
    (fun cmd =>
  and_then
    (match label with
     | Some label =>
         match get label_length_limits fs_family with
         | None =>
             inl (TypeError
               "'>' not supported between instances of 'int' and 'NoneType'")
         | Some limit =>
             and_then
               (if Nat.ltb limit (String.length label) then
                  if strict then
                    and_then (format label_too_long_fmt
                                [VStr path; VStr fstype; VInt limit])
                             (fun msg => inl (ValueError msg))
                  else inr (slice_to limit label)
                else inr label)
               (fun label =>
             and_then (get_flag_mapping "label" fs_family (Some label) strict)
                      (fun flag => inr (cmd ++ flag)%list))
         end
     | None => inr cmd
     end)
    (fun cmd =>
  and_then
    (match uuid with
     | Some uuid =>
         and_then (get_flag_mapping "uuid" fs_family (Some uuid) strict)
                  (fun flag => inr (cmd ++ flag)%list)
     | None => inr cmd
     end)
    (fun cmd =>
  and_then
    (if String.eqb fs_family "fat" then
       let fat_size := strip ascii_letters fstype in
       if contains ["12"; "16"; "32"] fat_size then
         and_then (get_flag_mapping "fatsize" fs_family (Some fat_size) strict)
                  (fun flag => inr (cmd ++ flag)%list)
       else inr cmd
     else inr cmd)
    (fun cmd => inr (cmd ++ [path])%list)))).

(** The calls [mkfs] has made when the argument vector is complete. *)
Definition mkfs_prelude {W : Type} (env : Env W) (w : W)
    (path mkfs_cmd : string) (force : bool) : list event :=
  [EvExists path true; EvWhich mkfs_cmd (which env mkfs_cmd w)]
  ++ (if force then [EvLsbRelease (lsb_codename env w)] else []).

(** [n] newline characters. *)
Fixpoint newlines (n : nat) : string :=
  match n with
  | O => EmptyString
  | S n' => nl ++ newlines n'
  end.

(** Number of times [util.subp] was handed the argument vector [cmd]. *)
Definition times_run (cmd : list string) (tr : list event) : nat :=
  count_occ (list_eq_dec string_dec) (commands tr) cmd.

(** Is the event a call of [util.lsb_release]? *)
Definition is_lsb_release (ev : event) : bool :=
  match ev with
  | EvLsbRelease _ => true
  | _ => false
  end.

(** The label [mkfs] hands to the tool when not strict: [label[:limit]] when
    the label is longer than [limit], the label itself otherwise. *)
Definition fitted (limit : nat) (label : string) : string :=
  if Nat.ltb limit (String.length label) then slice_to limit label else label.

(** A parameter as the list [get_flag_mapping] appends after the token. *)
Definition param_list (param : option string) : list string :=
  match param with
  | Some x => [x]
  | None => []
  end.

(* ================================================================== *)
(** * Facts about the Python primitives *)
(* ================================================================== *)

Lemma get_In {V : Type} (d : dict V) (k : string) (v : V) :
  get d k = Some v -> In (k, v) d.
Proof.
  induction d as [|[k' v'] d IH]; simpl; [discriminate|].
  destruct (String.eqb_spec k k') as [->|_].
  - intros [= ->]. now left.
  - intros H. right. now apply IH.
Qed.

(** The fstypes [mkfs] accepts, with their tools. *)
Lemma mkfs_commands_cases (fstype c : string) :
  get mkfs_commands fstype = Some c ->
  In (fstype, c) mkfs_commands.
Proof. apply get_In. Qed.

Lemma mkfs_run (W : Type) (env : Env W) (w : W) (p fstype c t : string)
    (strict : bool) (label uuid : option string) (force : bool) :
  path_exists env p w = true ->
  get mkfs_commands fstype = Some c ->
  which env c w = Some t ->
  run (mkfs env (Some p) fstype strict label uuid force) w =
  match mkfs_argv (lsb_codename env w) p fstype c strict label uuid force with
  | inl e =>
      (inl e, {| world := w; trace := mkfs_prelude env w p c force |})
  | inr cmd =>
      (subp_outcome (fst (subp env cmd w)),
       {| world := snd (subp env cmd w);
          trace := mkfs_prelude env w p c force
                   ++ [EvSubp cmd (fst (subp env cmd w))] |})
  end.
Proof.
  intros Hp Hc Ht.
  assert (Hne : exists a s, c = String a s).
  { apply mkfs_commands_cases in Hc. simpl in Hc.
    repeat (destruct Hc as [[= _ <-]|Hc]; [eauto|]). destruct Hc. }
  destruct Hne as (a & s & ->).
  unfold run, mkfs, mkfs_argv, mkfs_prelude.
  set (fam := get_default specific_to_family fstype fstype).
  unfold bind, os_path_exists, util_which, util_lsb_release_codename,
    raise_ValueError, lift, ret, raise, and_then, util_subp.
  cbn [world trace negb]. rewrite Hp, Hc. cbn [negb world trace]. rewrite Ht.
  cbn [app].
  repeat
    (match goal with
     | |- context [if ?b then _ else _] =>
         lazymatch b with
         | context [subp] => fail
         | _ => destruct b eqn:?
         end
     | |- context [match get_flag_mapping ?a ?b ?c ?d with _ => _ end] =>
         destruct (get_flag_mapping a b c d) eqn:?
     | |- context [match format ?a ?b with _ => _ end] =>
         destruct (format a b) eqn:?
     | |- context [match get ?a ?b with _ => _ end] =>
         destruct (get a b) eqn:?
     | |- context [match ?o with Some _ => _ | None => _ end] =>
         is_var o; destruct o
     end; cbn [world trace app negb]);
  try reflexivity.
  all: destruct (subp env _ w) as [[? ?|?] ?]; reflexivity.
Qed.

Lemma append_empty_r (s : string) : s ++ EmptyString = s.
Proof. induction s; simpl; congruence. Qed.

Lemma rstrip_no_trailing (chars s r : string) (c : ascii) :
  mem c chars = true ->
  rstrip chars s <> r ++ String c EmptyString.
Proof.
  intros Hc. revert r.
  induction s as [|a s IH]; intros r; simpl.
  - destruct r; discriminate.
  - destruct (rstrip chars s) as [|b t] eqn:E.
    + destruct (mem a chars) eqn:Ha.
      * destruct r; discriminate.
      * destruct r as [|a' r']; simpl.
        -- intros [= ->]. congruence.
        -- intros [= _ H]. destruct r'; discriminate.
    + destruct r as [|a' r']; simpl.
      * discriminate.
      * intros [= _ H]. exact (IH r' H).
Qed.

Lemma rstrip_nl_decompose (s : string) :
  exists n, s = rstrip nl s ++ newlines n.
Proof.
  induction s as [|a s [n IH]]; simpl.
  - exists 0. reflexivity.
  - destruct (rstrip nl s) as [|b t] eqn:E.
    + simpl in IH. destruct (Ascii.eqb_spec a (ascii_of_nat 10)) as [->|Hne].
      * exists (S n). simpl. now rewrite IH at 1.
      * exists n. simpl. now rewrite IH at 1.
    + exists n. simpl. now rewrite IH at 1.
Qed.

(* ================================================================== *)
(** * [get_flag_mapping] *)
(* ================================================================== *)

(** What [get_flag_mapping] does for a flag of the table that the family has
    no token for: silently nothing when not strict; when strict, the format
    with two [%s] gets one argument and [TypeError] is raised in place of the
    [ValueError] the source builds. *)
Lemma get_flag_mapping_unsupported (flag_name fs_family : string)
    (param : option string) :
  get family_flag_mappings flag_name <> None ->
  supports flag_name fs_family = false ->
  get_flag_mapping flag_name fs_family param false = inr []
  /\ get_flag_mapping flag_name fs_family param true
     = inl (TypeError "not enough arguments for format string").
Proof.
  unfold supports, get_flag_mapping.
  destruct (get family_flag_mappings flag_name) as [m|]; [|congruence].
  intros _. destruct (get m fs_family); [discriminate|].
  intros _. split; reflexivity.
Qed.

Lemma get_flag_mapping_unsupported_witness :
  get family_flag_mappings "quiet" <> None
  /\ supports "quiet" "swap" = false
  /\ get_flag_mapping "quiet" "swap" (Some "x") false = inr []
  /\ get_flag_mapping "quiet" "swap" (Some "x") true
     = inl (TypeError "not enough arguments for format string").
Proof.
  assert (H1 : get family_flag_mappings "quiet" <> None) by discriminate.
  assert (H2 : supports "quiet" "swap" = false) by reflexivity.
  split; [exact H1|]. split; [exact H2|].
  exact (get_flag_mapping_unsupported "quiet" "swap" (Some "x") H1 H2).
Defined.

(** C1 (the code departs from it): for the flag [uuid], which the family
    [fat] has no token for, the non-strict call returns the empty list, but
    the strict call raises [TypeError] with the message of a failed [%]
    format, which names neither the flag nor the family, where the claim has
    the unsupported-flag error ([ValueError] in the source) naming both. *)
Theorem get_flag_mapping_uuid_fat :
  supports "uuid" "fat" = false
  /\ get_flag_mapping "uuid" "fat" None false = inr []
  /\ get_flag_mapping "uuid" "fat" None true
     = inl (TypeError "not enough arguments for format string")
  /\ (forall msg, get_flag_mapping "uuid" "fat" None true
                  <> inl (ValueError msg)).
Proof.
  repeat split; try reflexivity. intros msg. discriminate.
Qed.

(* ================================================================== *)
(** * [mkfs]: path validation *)
(* ================================================================== *)

(** C8: [mkfs] called with [None] for the path, or with a path that does
    not exist, raises [ValueError] (the invalid-path error), leaves the world
    as it was, and has made no call to [util.which], [util.lsb_release] or
    [util.subp]: the trace holds at most the existence test. *)
Theorem mkfs_invalid_path (W : Type) (env : Env W) (w : W)
    (path : option string) (fstype : string) (strict : bool)
    (label uuid : option string) (force : bool) :
  match path with
  | None => True
  | Some p => path_exists env p w = false
  end ->
  run (mkfs env path fstype strict label uuid force) w
  = (inl (ValueError
            match path with
            | None => "invalid block dev path 'None'"
            | Some p => "'" ++ p ++ "': no such file or directory"
            end),
     {| world := w;
        trace := match path with
                 | None => []
                 | Some p => [EvExists p false]
                 end |})
  /\ existsb is_external
       (events (mkfs env path fstype strict label uuid force) w) = false.
Proof.
  destruct path as [p|]; intros H.
  - unfold events, run, mkfs, bind, os_path_exists. cbn [world trace].
    rewrite H. split; reflexivity.
  - split; reflexivity.
Qed.

Lemma mkfs_invalid_path_witness :
  let env := scripted ["/dev/x"] ["mkfs.ext4"] "xenial" in
  path_exists env "/dev/y" [Exited EmptyString EmptyString] = false
  /\ run (mkfs env (Some "/dev/y") "ext4" false None None false)
         [Exited EmptyString EmptyString]
     = (inl (ValueError "'/dev/y': no such file or directory"),
        {| world := [Exited EmptyString EmptyString];
           trace := [EvExists "/dev/y" false] |}).
Proof.
  split; [reflexivity|].
  apply (mkfs_invalid_path (scripted ["/dev/x"] ["mkfs.ext4"] "xenial")
           [Exited EmptyString EmptyString] (Some "/dev/y") "ext4" false
           None None false).
  reflexivity.
Defined.

(* ================================================================== *)
(** * [gpg_getkeybyid] *)
(* ================================================================== *)

(** The message [gpg_recv_key] raises with. *)
Lemma format_import_failure (key keyserver error : string) :
  format ("Failed to import key " ++ dquote ++ "%s" ++ dquote
          ++ " from server " ++ dquote ++ "%s" ++ dquote ++ " - error %s")
         [VStr key; VStr keyserver; VStr error]
  = inr ("Failed to import key " ++ dquote ++ key ++ dquote
         ++ " from server " ++ dquote ++ keyserver ++ dquote
         ++ " - error " ++ error).
Proof. simpl. now rewrite append_empty_r. Qed.

Ltac gpg_simpl :=
  rewrite ?format_import_failure;
  cbn [world trace fst snd truthy negb app absent exited].

Ltac gpg_unfold :=
  unfold times_run, outcome, events, run, gpg_getkeybyid, gpg_export_armour,
    gpg_recv_key, gpg_delete_key, rstrip_method, try_finally, try_except,
    raise_ValueError, LOG, emit, bind, lift, ret, raise, util_subp,
    export_cmd, recv_cmd, delete_cmd in *;
  cbn [world trace fst snd] in *.

Ltac gpg_answer H := rewrite H; gpg_simpl.

Ltac gpg_rest :=
  repeat match goal with
    | |- context [subp ?env ?cmd ?w] =>
        destruct (subp env cmd w) as [[? ?|?] ?]; gpg_simpl
    end.

(** C7, as the code has it: when the first export run exits with a text
    that is not empty, [gpg_getkeybyid] runs nothing else (no receive, no
    delete, no log) and returns that text without its trailing newlines: the
    text is the returned value followed by newlines only, and the returned
    value does not end in a newline. *)
Theorem gpg_getkeybyid_local_key (W : Type) (env : Env W) (w w' : W)
    (keyid keyserver out err : string) :
  subp env (export_cmd keyid) w = (Exited out err, w') ->
  out <> EmptyString ->
  exists text,
    run (gpg_getkeybyid env keyid keyserver) w
    = (inr text,
       {| world := w';
          trace := [EvSubp (export_cmd keyid) (Exited out err)] |})
    /\ text = rstrip nl out
    /\ (exists n, out = text ++ newlines n)
    /\ (forall r, text <> r ++ nl).
Proof.
  intros H Hne. exists (rstrip nl out).
  split; [|split; [reflexivity|split]].
  - gpg_unfold. gpg_answer H. destruct out; [congruence|reflexivity].
  - apply rstrip_nl_decompose.
  - intros r. apply rstrip_no_trailing. reflexivity.
Qed.

Lemma gpg_getkeybyid_local_key_witness :
  exists text,
    run (gpg_getkeybyid (scripted [] [] "xenial") "K" default_keyserver)
        [Exited ("KEY" ++ nl ++ nl) EmptyString]
    = (inr text,
       {| world := [];
          trace := [EvSubp (export_cmd "K")
                           (Exited ("KEY" ++ nl ++ nl) EmptyString)] |})
    /\ text = rstrip nl ("KEY" ++ nl ++ nl)
    /\ (exists n, "KEY" ++ nl ++ nl = text ++ newlines n)
    /\ (forall r, text <> r ++ nl).
Proof.
  apply (@gpg_getkeybyid_local_key _ (scripted [] [] "xenial")
           [Exited ("KEY" ++ nl ++ nl) EmptyString] [] "K"
           default_keyserver ("KEY" ++ nl ++ nl) EmptyString).
  - reflexivity.
  - discriminate.
Defined.

(** C7 as stated fails: a first export run that exits normally with an empty
    output (the call succeeded) is followed by the receive and the delete. *)
Lemma gpg_getkeybyid_local_key_counterexample :
  let env := scripted [] [] "xenial" in
  let w := [Exited EmptyString EmptyString; Exited EmptyString EmptyString;
            Exited "KEY" EmptyString; Exited EmptyString EmptyString] in
  fst (subp env (export_cmd "K") w) = Exited EmptyString EmptyString
  /\ commands (events (gpg_getkeybyid env "K" "ks") w)
     = [export_cmd "K"; recv_cmd "K" "ks"; export_cmd "K"; delete_cmd "K"]
  /\ outcome (gpg_getkeybyid env "K" "ks") w = inr "KEY"
  /\ ~ (forall (W : Type) (env : Env W) (w w' : W)
          (keyid keyserver out err : string),
          subp env (export_cmd keyid) w = (Exited out err, w') ->
          commands (events (gpg_getkeybyid env keyid keyserver) w)
          = [export_cmd keyid]).
Proof.
  repeat split; try reflexivity.
  intros H.
  specialize (H _ (scripted [] [] "xenial")
                [Exited EmptyString EmptyString; Exited EmptyString EmptyString;
                 Exited "KEY" EmptyString; Exited EmptyString EmptyString]
                _ "K" "ks" EmptyString EmptyString eq_refl).
  discriminate H.
Qed.

(** C2, as the code has it: with [r1] what the first export run gave and
    [r2] what a receive run in the world after it gives, the process runs of
    [gpg_getkeybyid] are the following.  When [r1] failed or has an empty
    output: the export, the receive, the second export if the receive
    exited normally, and last the delete, which is run exactly once whatever
    the receive and the second export gave.  When [r1] has a non-empty
    output: the export alone, and the delete is never run. *)
Theorem gpg_getkeybyid_delete_once (W : Type) (env : Env W) (w w1 w2 : W)
    (keyid keyserver : string) (r1 r2 : completed) :
  subp env (export_cmd keyid) w = (r1, w1) ->
  subp env (recv_cmd keyid keyserver) w1 = (r2, w2) ->
  let tr := events (gpg_getkeybyid env keyid keyserver) w in
  commands tr
  = (if absent r1 then
       ([export_cmd keyid; recv_cmd keyid keyserver]
        ++ (if exited r2 then [export_cmd keyid] else [])
        ++ [delete_cmd keyid])%list
     else [export_cmd keyid])
  /\ times_run (delete_cmd keyid) tr = (if absent r1 then 1 else 0).
Proof.
  intros H1 H2. cbv zeta.
  assert (Hcmd :
    commands (events (gpg_getkeybyid env keyid keyserver) w)
    = (if absent r1 then
         ([export_cmd keyid; recv_cmd keyid keyserver]
          ++ (if exited r2 then [export_cmd keyid] else [])
          ++ [delete_cmd keyid])%list
       else [export_cmd keyid])).
  { gpg_unfold. gpg_answer H1.
    destruct r1 as [[|a out] err|e1]; gpg_simpl; try reflexivity;
      gpg_answer H2; destruct r2 as [o2 e2|e2]; gpg_simpl;
      gpg_rest; reflexivity. }
  split; [exact Hcmd|].
  unfold times_run. rewrite Hcmd.
  assert (He : export_cmd keyid <> delete_cmd keyid) by discriminate.
  assert (Hr : recv_cmd keyid keyserver <> delete_cmd keyid) by discriminate.
  destruct (absent r1); [destruct (exited r2)|]; cbn [app];
    repeat (rewrite count_occ_cons_neq by assumption);
    try rewrite count_occ_cons_eq by reflexivity; reflexivity.
Qed.

Lemma gpg_getkeybyid_delete_once_witness :
  let env := scripted [] [] "xenial" in
  let w := [Failed "no key"; Exited EmptyString EmptyString;
            Exited ("KEY" ++ nl) EmptyString; Failed "cannot delete"] in
  let tr := events (gpg_getkeybyid env "K" "ks") w in
  commands tr
  = [export_cmd "K"; recv_cmd "K" "ks"; export_cmd "K"; delete_cmd "K"]
  /\ times_run (delete_cmd "K") tr = 1.
Proof.
  apply (@gpg_getkeybyid_delete_once _ (scripted [] [] "xenial")
           [Failed "no key"; Exited EmptyString EmptyString;
            Exited ("KEY" ++ nl) EmptyString; Failed "cannot delete"]
           [Exited EmptyString EmptyString;
            Exited ("KEY" ++ nl) EmptyString; Failed "cannot delete"]
           [Exited ("KEY" ++ nl) EmptyString; Failed "cannot delete"]
           "K" "ks" (Failed "no key") (Exited EmptyString EmptyString)).
  - reflexivity.
  - reflexivity.
Defined.

(** C2 as stated fails in its last part: the first export run exits
    normally, with an empty output, and the delete is run once. *)
Lemma gpg_getkeybyid_delete_once_counterexample :
  let env := scripted [] [] "xenial" in
  let w := [Exited EmptyString "gpg: WARNING: nothing exported";
            Failed "keyserver receive failed"; Exited EmptyString EmptyString] in
  exited (fst (subp env (export_cmd "K") w)) = true
  /\ times_run (delete_cmd "K") (events (gpg_getkeybyid env "K" "ks") w) = 1
  /\ ~ (forall (W : Type) (env : Env W) (w w' : W)
          (keyid keyserver out err : string),
          subp env (export_cmd keyid) w = (Exited out err, w') ->
          times_run (delete_cmd keyid)
            (events (gpg_getkeybyid env keyid keyserver) w) = 0).
Proof.
  repeat split; try reflexivity.
  intros H.
  specialize (H _ (scripted [] [] "xenial")
                [Exited EmptyString "gpg: WARNING: nothing exported";
                 Failed "keyserver receive failed";
                 Exited EmptyString EmptyString]
                _ "K" "ks" EmptyString _ eq_refl).
  discriminate H.
Qed.

(** C3: when the first export gave nothing and the receive run fails with
    [error], [gpg_getkeybyid] raises [ValueError] (the key-fetch error) with
    a message made of the key id, the keyserver and [error], and the delete
    has been run by then: the process runs are the export, the receive and
    the delete, in this order, and no second export. *)
Theorem gpg_getkeybyid_receive_failure (W : Type) (env : Env W)
    (w w1 w2 : W) (keyid keyserver error : string) (r1 : completed) :
  subp env (export_cmd keyid) w = (r1, w1) ->
  absent r1 = true ->
  subp env (recv_cmd keyid keyserver) w1 = (Failed error, w2) ->
  outcome (gpg_getkeybyid env keyid keyserver) w
  = inl (ValueError
           ("Failed to import key " ++ dquote ++ keyid ++ dquote
            ++ " from server " ++ dquote ++ keyserver ++ dquote
            ++ " - error " ++ error))
  /\ commands (events (gpg_getkeybyid env keyid keyserver) w)
     = [export_cmd keyid; recv_cmd keyid keyserver; delete_cmd keyid].
Proof.
  intros H1 Ha H2.
  split; gpg_unfold; gpg_answer H1;
    (destruct r1 as [[|a out] err|e1]; [|discriminate Ha|]);
    gpg_simpl; gpg_answer H2; gpg_rest; reflexivity.
Qed.

Lemma gpg_getkeybyid_receive_failure_witness :
  let env := scripted [] [] "xenial" in
  let w := [Failed "no key"; Failed "no route to host";
            Exited EmptyString EmptyString] in
  outcome (gpg_getkeybyid env "K" "ks") w
  = inl (ValueError
           ("Failed to import key " ++ dquote ++ "K" ++ dquote
            ++ " from server " ++ dquote ++ "ks" ++ dquote
            ++ " - error " ++ "no route to host"))
  /\ commands (events (gpg_getkeybyid env "K" "ks") w)
     = [export_cmd "K"; recv_cmd "K" "ks"; delete_cmd "K"].
Proof.
  apply (@gpg_getkeybyid_receive_failure _ (scripted [] [] "xenial")
           [Failed "no key"; Failed "no route to host";
            Exited EmptyString EmptyString]
           [Failed "no route to host"; Exited EmptyString EmptyString]
           [Exited EmptyString EmptyString]
           "K" "ks" "no route to host" (Failed "no key")).
  - reflexivity.
  - reflexivity.
  - reflexivity.
Defined.

(** C9: a first export run that exits normally with an empty output is
    treated as a failed one.  From two worlds that differ only in that
    answer, [gpg_getkeybyid] ends with the same outcome in the same world
    after the same process runs, which are the export, then the receive, and
    the delete last; the traces differ by the debug line of the failed
    export alone. *)
Theorem gpg_getkeybyid_empty_export (W : Type) (env : Env W)
    (w wf w1 : W) (keyid keyserver err e : string) :
  subp env (export_cmd keyid) w = (Exited EmptyString err, w1) ->
  subp env (export_cmd keyid) wf = (Failed e, w1) ->
  let m := gpg_getkeybyid env keyid keyserver in
  outcome m w = outcome m wf
  /\ world (snd (run m w)) = world (snd (run m wf))
  /\ commands (events m w) = commands (events m wf)
  /\ skipn 1 (events m w) = skipn 2 (events m wf)
  /\ exists rest,
       commands (events m w)
       = (export_cmd keyid :: recv_cmd keyid keyserver
            :: rest ++ [delete_cmd keyid])%list.
Proof.
  intros H Hf. cbv zeta.
  gpg_unfold. rewrite H, Hf. gpg_simpl.
  destruct (subp env _ w1) as [[o2 e2|e2] w2]; gpg_simpl.
  - destruct (subp env _ w2) as [[o3 e3|e3] w3]; gpg_simpl;
      destruct (subp env _ w3) as [[o4 e4|e4] w4]; gpg_simpl;
      repeat split; try reflexivity;
      exists [["gpg"; "--export"; "--armour"; keyid]]; reflexivity.
  - destruct (subp env _ w2) as [[o4 e4|e4] w4]; gpg_simpl;
      repeat split; try reflexivity; exists []; reflexivity.
Qed.

Lemma gpg_getkeybyid_empty_export_witness :
  let env := scripted [] [] "xenial" in
  let rest := [Exited EmptyString EmptyString; Exited "KEY" EmptyString;
               Exited EmptyString EmptyString] in
  let m := gpg_getkeybyid env "K" "ks" in
  outcome m (Exited EmptyString "nothing exported" :: rest)
  = outcome m (Failed "no key" :: rest)
  /\ commands (events m (Exited EmptyString "nothing exported" :: rest))
     = [export_cmd "K"; recv_cmd "K" "ks"; export_cmd "K"; delete_cmd "K"].
Proof.
  pose proof
    (@gpg_getkeybyid_empty_export _ (scripted [] [] "xenial")
       [Exited EmptyString "nothing exported"; Exited EmptyString EmptyString;
        Exited "KEY" EmptyString; Exited EmptyString EmptyString]
       [Failed "no key"; Exited EmptyString EmptyString;
        Exited "KEY" EmptyString; Exited EmptyString EmptyString]
       [Exited EmptyString EmptyString; Exited "KEY" EmptyString;
        Exited EmptyString EmptyString]
       "K" "ks" "nothing exported" "no key" eq_refl eq_refl) as H.
  split; [exact (proj1 H)|reflexivity].
Defined.

(** Every normal return of [gpg_getkeybyid] is the output of an export run
    that exited normally, without its trailing newlines. *)
Lemma gpg_getkeybyid_return_from_export (W : Type) (env : Env W) (w : W)
    (keyid keyserver text : string) :
  outcome (gpg_getkeybyid env keyid keyserver) w = inr text ->
  exists out err,
    In (EvSubp (export_cmd keyid) (Exited out err))
       (events (gpg_getkeybyid env keyid keyserver) w)
    /\ text = rstrip nl out.
Proof.
  gpg_unfold.
  destruct (subp env _ w) as [[[|a o1] e1|e1] w1]; gpg_simpl;
    gpg_rest; intros [= <-]; do 2 eexists;
    (split; [simpl; eauto 10|reflexivity]).
Qed.

(** C10: when the first export gave nothing, the receive run exits normally
    and the second export run fails, [gpg_getkeybyid] runs the delete and
    then raises [AttributeError] from [rstrip] on [None]: it does not return.
    And whenever it returns, the value is the output of an export run that
    exited normally, without its trailing newlines. *)
Theorem gpg_getkeybyid_second_export_null (W : Type) (env : Env W)
    (w w1 w2 w3 : W) (keyid keyserver o2 e2 e3 : string) (r1 : completed) :
  subp env (export_cmd keyid) w = (r1, w1) ->
  absent r1 = true ->
  subp env (recv_cmd keyid keyserver) w1 = (Exited o2 e2, w2) ->
  subp env (export_cmd keyid) w2 = (Failed e3, w3) ->
  let m := gpg_getkeybyid env keyid keyserver in
  outcome m w
  = inl (AttributeError "'NoneType' object has no attribute 'rstrip'")
  /\ commands (events m w)
     = [export_cmd keyid; recv_cmd keyid keyserver; export_cmd keyid;
        delete_cmd keyid]
  /\ forall (w0 : W) (text : string),
       outcome m w0 = inr text ->
       exists out err,
         In (EvSubp (export_cmd keyid) (Exited out err)) (events m w0)
         /\ text = rstrip nl out.
Proof.
  intros H1 Ha H2 H3. cbv zeta.
  split; [|split].
  - gpg_unfold. gpg_answer H1.
    (destruct r1 as [[|a out] err|e1]; [|discriminate Ha|]);
      gpg_simpl; gpg_answer H2; gpg_answer H3; gpg_rest; reflexivity.
  - gpg_unfold. gpg_answer H1.
    (destruct r1 as [[|a out] err|e1]; [|discriminate Ha|]);
      gpg_simpl; gpg_answer H2; gpg_answer H3; gpg_rest; reflexivity.
  - intros w0 text. apply gpg_getkeybyid_return_from_export.
Qed.

Lemma gpg_getkeybyid_second_export_null_witness :
  let env := scripted [] [] "xenial" in
  let w := [Failed "no key"; Exited EmptyString EmptyString;
            Failed "still no key"; Exited EmptyString EmptyString] in
  outcome (gpg_getkeybyid env "K" "ks") w
  = inl (AttributeError "'NoneType' object has no attribute 'rstrip'")
  /\ commands (events (gpg_getkeybyid env "K" "ks") w)
     = [export_cmd "K"; recv_cmd "K" "ks"; export_cmd "K"; delete_cmd "K"].
Proof.
  pose proof
    (@gpg_getkeybyid_second_export_null _ (scripted [] [] "xenial")
       [Failed "no key"; Exited EmptyString EmptyString;
        Failed "still no key"; Exited EmptyString EmptyString]
       [Exited EmptyString EmptyString;
        Failed "still no key"; Exited EmptyString EmptyString]
       [Failed "still no key"; Exited EmptyString EmptyString]
       [Exited EmptyString EmptyString]
       "K" "ks" EmptyString EmptyString "still no key" (Failed "no key")
       eq_refl eq_refl eq_refl eq_refl) as H.
  split; [exact (proj1 H)|exact (proj1 (proj2 H))].
Defined.

(* ================================================================== *)
(** * [mkfs]: the assembled command *)
(* ================================================================== *)

Lemma slice_to_length (s : string) (n : nat) :
  n <= String.length s -> String.length (slice_to n s) = n.
Proof.
  unfold slice_to. revert n.
  induction s as [|a s IH]; intros [|n] H; simpl in *; try reflexivity.
  - lia.
  - f_equal. apply IH. lia.
Qed.

Lemma slice_to_prefix (s : string) (n : nat) :
  exists rest, s = slice_to n s ++ rest.
Proof.
  unfold slice_to. revert n.
  induction s as [|a s IH]; intros [|n]; simpl.
  - now exists EmptyString.
  - now exists EmptyString.
  - now exists (String a s).
  - destruct (IH n) as [rest E]. exists rest. now rewrite E at 1.
Qed.

Lemma commands_prelude (W : Type) (env : Env W) (w : W) (p c : string)
    (force : bool) :
  commands (mkfs_prelude env w p c force) = [].
Proof. destruct force; reflexivity. Qed.

Lemma commands_app (tr1 tr2 : list event) :
  commands (tr1 ++ tr2) = (commands tr1 ++ commands tr2)%list.
Proof.
  induction tr1 as [|ev tr1 IH]; [reflexivity|].
  destruct ev; simpl; rewrite ?IH; reflexivity.
Qed.

(** The process runs and the outcome of [mkfs] once the path and the tool
    have been found. *)
Lemma mkfs_commands_run (W : Type) (env : Env W) (w : W)
    (p fstype c t : string) (strict : bool) (label uuid : option string)
    (force : bool) :
  path_exists env p w = true ->
  get mkfs_commands fstype = Some c ->
  which env c w = Some t ->
  commands (events (mkfs env (Some p) fstype strict label uuid force) w)
  = match mkfs_argv (lsb_codename env w) p fstype c strict label uuid force with
    | inl _ => []
    | inr cmd => [cmd]
    end.
Proof.
  intros Hp Hc Ht. unfold events.
  rewrite (mkfs_run env w p fstype strict label uuid force Hp Hc Ht).
  destruct (mkfs_argv _ _ _ _ _ _ _ _); cbn [snd trace].
  - apply commands_prelude.
  - rewrite commands_app, commands_prelude. reflexivity.
Qed.

Lemma mkfs_outcome_run (W : Type) (env : Env W) (w : W)
    (p fstype c t : string) (strict : bool) (label uuid : option string)
    (force : bool) :
  path_exists env p w = true ->
  get mkfs_commands fstype = Some c ->
  which env c w = Some t ->
  outcome (mkfs env (Some p) fstype strict label uuid force) w
  = match mkfs_argv (lsb_codename env w) p fstype c strict label uuid force with
    | inl e => inl e
    | inr cmd => subp_outcome (fst (subp env cmd w))
    end.
Proof.
  intros Hp Hc Ht. unfold outcome.
  rewrite (mkfs_run env w p fstype strict label uuid force Hp Hc Ht).
  destruct (mkfs_argv _ _ _ _ _ _ _ _); reflexivity.
Qed.

Lemma mkfs_world_run (W : Type) (env : Env W) (w : W)
    (p fstype c t : string) (strict : bool) (label uuid : option string)
    (force : bool) :
  path_exists env p w = true ->
  get mkfs_commands fstype = Some c ->
  which env c w = Some t ->
  world (snd (run (mkfs env (Some p) fstype strict label uuid force) w))
  = match mkfs_argv (lsb_codename env w) p fstype c strict label uuid force with
    | inl _ => w
    | inr cmd => snd (subp env cmd w)
    end.
Proof.
  intros Hp Hc Ht.
  rewrite (mkfs_run env w p fstype strict label uuid force Hp Hc Ht).
  destruct (mkfs_argv _ _ _ _ _ _ _ _); reflexivity.
Qed.

(** Case analysis along the steps of [mkfs_argv]. *)
Ltac argv_cases :=
  repeat
    (match goal with
     | |- context [if ?b then _ else _] => destruct b eqn:?
     | |- context [and_then (get_flag_mapping ?a ?b ?c ?d) _] =>
         destruct (get_flag_mapping a b c d) eqn:?
     | |- context [and_then (format ?a ?b) _] =>
         destruct (format a b) eqn:?
     | |- context [match get ?a ?b with _ => _ end] =>
         destruct (get a b) eqn:?
     | |- context [match ?o with Some _ => _ | None => _ end] =>
         is_var o; destruct o
     end; cbn [and_then]).

(** How requesting [force] changes the assembled command. *)
Lemma mkfs_argv_force (codename p fstype c : string) (strict : bool)
    (label uuid : option string) :
  mkfs_argv codename p fstype c strict label uuid true
  = if String.eqb codename "precise" && String.eqb fstype "btrfs" then
      mkfs_argv codename p fstype c strict label uuid false
    else
      and_then
        (get_flag_mapping "force"
           (get_default specific_to_family fstype fstype) None strict)
        (fun flag =>
           and_then (mkfs_argv codename p fstype c strict label uuid false)
                    (fun cmd => inr (c :: flag ++ tl cmd)%list)).
Proof.
  unfold mkfs_argv.
  set (fam := get_default specific_to_family fstype fstype).
  destruct (String.eqb codename "precise" && String.eqb fstype "btrfs");
    cbn [negb and_then]; [reflexivity|].
  destruct (get_flag_mapping "force" fam None strict) as [e|flag];
    cbn [and_then]; [reflexivity|].
  argv_cases; try reflexivity;
    cbn [app tl]; rewrite <- ?app_assoc; reflexivity.
Qed.

Lemma mkfs_argv_plain_head (codename p fstype c : string) (strict : bool)
    (label uuid : option string) (cmd : list string) :
  mkfs_argv codename p fstype c strict label uuid false = inr cmd ->
  exists rest, cmd = c :: rest.
Proof.
  unfold mkfs_argv. cbn [and_then].
  argv_cases; intros [= <-]; cbn [app]; eauto.
Qed.

(** A supported flag resolves to its token, followed by the parameter when
    there is one, strict or not. *)
Lemma get_flag_mapping_supported (flag_name fs_family : string) :
  supports flag_name fs_family = true ->
  exists tok, forall (param : option string) (strict : bool),
    get_flag_mapping flag_name fs_family param strict
    = inr (tok :: match param with Some x => [x] | None => [] end).
Proof.
  unfold supports, get_flag_mapping.
  destruct (get family_flag_mappings flag_name) as [m|]; [|discriminate].
  destruct (get m fs_family) as [tok|]; [|discriminate].
  intros _. exists tok. intros [x|] strict; reflexivity.
Qed.

(** Without [strict], a flag of the table never raises. *)
Lemma get_flag_mapping_nonstrict (flag_name fs_family : string)
    (param : option string) :
  get family_flag_mappings flag_name <> None ->
  exists flag, get_flag_mapping flag_name fs_family param false = inr flag.
Proof.
  unfold get_flag_mapping.
  destruct (get family_flag_mappings flag_name) as [m|]; [|congruence].
  intros _. destruct (get m fs_family); destruct param; eauto.
Qed.

(** Every family with a label limit has a label token. *)
Lemma limit_supports_label (fs_family : string) (limit : nat) :
  get label_length_limits fs_family = Some limit ->
  supports "label" fs_family = true.
Proof.
  intros H. apply get_In in H. simpl in H.
  repeat (destruct H as [[= <- <-]|H]; [reflexivity|]). destruct H.
Qed.

(** Every fstype [mkfs] accepts has a family with a label limit. *)
Lemma supported_fstype_has_limit (fstype c : string) :
  get mkfs_commands fstype = Some c ->
  exists limit,
    get label_length_limits (get_default specific_to_family fstype fstype)
    = Some limit.
Proof.
  intros H. apply get_In in H. simpl in H.
  repeat (destruct H as [[= <- <-]|H]; [eexists; reflexivity|]). destruct H.
Qed.

Lemma format_label_too_long (p fstype : string) (limit : nat) :
  format label_too_long_fmt [VStr p; VStr fstype; VInt limit]
  = inr ("length of fs label for '" ++ p ++ "' exceeds max " ++ blanks33
         ++ "allowed for fstype '" ++ fstype ++ "'. max is '"
         ++ str (VInt limit) ++ "'").
Proof. reflexivity. Qed.

Lemma mkfs_argv_truncates (codename p fstype c label : string)
    (uuid : option string) (force : bool) (limit : nat) :
  get label_length_limits (get_default specific_to_family fstype fstype)
  = Some limit ->
  limit < String.length label ->
  exists tok force_flags uuid_flags fat_flags,
    get_flag_mapping "label" (get_default specific_to_family fstype fstype)
      None false = inr [tok]
    /\ mkfs_argv codename p fstype c false (Some label) uuid force
       = inr (c :: force_flags ++ [tok; slice_to limit label]
                ++ uuid_flags ++ fat_flags ++ [p])%list.
Proof.
  intros Hlim Hlt.
  assert (Hltb : Nat.ltb limit (String.length label) = true)
    by (apply Nat.ltb_lt; exact Hlt).
  unfold mkfs_argv.
  set (fam := get_default specific_to_family fstype fstype) in *.
  rewrite Hlim, Hltb. cbn [and_then].
  destruct (get_flag_mapping_supported "label" fam
              (limit_supports_label fam Hlim)) as [tok Htok].
  rewrite (Htok (Some (slice_to limit label)) false).
  destruct (@get_flag_mapping_nonstrict "force" fam None) as [F HF];
    [discriminate|].
  destruct (@get_flag_mapping_nonstrict "fatsize" fam
              (Some (strip ascii_letters fstype))) as [S HS];
    [discriminate|].
  assert (HU : exists U,
             match uuid with
             | Some u =>
                 and_then (get_flag_mapping "uuid" fam (Some u) false)
                          (fun flag => inr flag)
             | None => inr []
             end = @inr exn _ U).
  { destruct uuid as [u|]; [|eauto].
    destruct (@get_flag_mapping_nonstrict "uuid" fam (Some u)) as [U HU];
      [discriminate|].
    exists U. now rewrite HU. }
  destruct HU as [U HU].
  exists tok,
    (if force then
       if negb (String.eqb codename "precise" && String.eqb fstype "btrfs")
       then F else []
     else []),
    U,
    (if String.eqb fam "fat" then
       if contains ["12"; "16"; "32"] (strip ascii_letters fstype)
       then S else []
     else []).
  split; [apply (Htok None false)|].
  rewrite HF, HS.
  destruct uuid as [u|];
    [destruct (get_flag_mapping "uuid" fam (Some u) false) as [e|U'];
       [discriminate HU|]; injection HU as <-
    |injection HU as <-];
    destruct force,
      (negb (String.eqb codename "precise" && String.eqb fstype "btrfs")),
      (String.eqb fam "fat"),
      (contains ["12"; "16"; "32"] (strip ascii_letters fstype));
    cbn [and_then app]; rewrite <- ?app_assoc; cbn [app];
    rewrite ?app_nil_r; reflexivity.
Qed.

Lemma mkfs_argv_strict_label (codename p fstype c label : string)
    (uuid : option string) (force : bool) (limit : nat) :
  get label_length_limits (get_default specific_to_family fstype fstype)
  = Some limit ->
  limit < String.length label ->
  (force = true ->
   supports "force" (get_default specific_to_family fstype fstype) = true) ->
  mkfs_argv codename p fstype c true (Some label) uuid force
  = inl (ValueError
           ("length of fs label for '" ++ p ++ "' exceeds max " ++ blanks33
            ++ "allowed for fstype '" ++ fstype ++ "'. max is '"
            ++ str (VInt limit) ++ "'")).
Proof.
  intros Hlim Hlt Hforce.
  assert (Hltb : Nat.ltb limit (String.length label) = true)
    by (apply Nat.ltb_lt; exact Hlt).
  unfold mkfs_argv.
  set (fam := get_default specific_to_family fstype fstype) in *.
  rewrite Hlim, Hltb, format_label_too_long. cbn [and_then].
  destruct force; [|reflexivity].
  destruct (get_flag_mapping_supported "force" fam (Hforce eq_refl))
    as [tok Htok].
  rewrite (Htok None true).
  destruct (negb _); reflexivity.
Qed.

(** C5: for an fstype [mkfs] accepts whose family has the label limit
    [limit], and a label longer than that.  Without [strict], the one
    process run has the tool name, then the force tokens if any, then the
    family's label token and the first [limit] characters of the label (a
    prefix of the label, of length exactly [limit]), then the uuid and
    fatsize tokens if any, and the path last.  With [strict] (and, when
    [force] is requested, for a family that has a force token, so that the
    step before the label does not raise), [mkfs] raises [ValueError] (the
    label-too-long error) with a message made of the path, the fstype and
    the limit, and runs nothing. *)
Theorem mkfs_label_too_long (W : Type) (env : Env W) (w : W)
    (p fstype c t label : string) (uuid : option string) (force : bool)
    (limit : nat) :
  path_exists env p w = true ->
  get mkfs_commands fstype = Some c ->
  which env c w = Some t ->
  get label_length_limits (get_default specific_to_family fstype fstype)
  = Some limit ->
  limit < String.length label ->
  (exists tok force_flags uuid_flags fat_flags,
      get_flag_mapping "label" (get_default specific_to_family fstype fstype)
        None false = inr [tok]
      /\ commands
           (events (mkfs env (Some p) fstype false (Some label) uuid force) w)
         = [(c :: force_flags ++ [tok; slice_to limit label]
               ++ uuid_flags ++ fat_flags ++ [p])%list]
      /\ String.length (slice_to limit label) = limit
      /\ exists rest, label = slice_to limit label ++ rest)
  /\ ((force = true ->
       supports "force" (get_default specific_to_family fstype fstype) = true)
      -> outcome (mkfs env (Some p) fstype true (Some label) uuid force) w
         = inl (ValueError
                  ("length of fs label for '" ++ p ++ "' exceeds max "
                   ++ blanks33 ++ "allowed for fstype '" ++ fstype
                   ++ "'. max is '" ++ str (VInt limit) ++ "'"))
         /\ commands
              (events (mkfs env (Some p) fstype true (Some label) uuid force) w)
            = []).
Proof.
  intros Hp Hc Ht Hlim Hlt. split.
  - destruct (mkfs_argv_truncates (lsb_codename env w) p fstype c label uuid
                force Hlim Hlt) as (tok & F & U & S & Htok & Hargv).
    exists tok, F, U, S. split; [exact Htok|]. split; [|split].
    + rewrite (mkfs_commands_run env w p fstype false (Some label) uuid force
                 Hp Hc Ht), Hargv. reflexivity.
    + apply slice_to_length. lia.
    + apply slice_to_prefix.
  - intros Hforce.
    rewrite (mkfs_outcome_run env w p fstype true (Some label) uuid force
               Hp Hc Ht).
    rewrite (mkfs_commands_run env w p fstype true (Some label) uuid force
               Hp Hc Ht).
    rewrite (@mkfs_argv_strict_label (lsb_codename env w) p fstype c label
               uuid force limit Hlim Hlt Hforce).
    split; reflexivity.
Qed.

Lemma mkfs_label_too_long_witness :
  let env := scripted ["/dev/x"] ["mkfs.ext4"] "xenial" in
  let w := [Exited EmptyString EmptyString] in
  let label := "a-label-of-twenty-ch" in
  (exists tok force_flags uuid_flags fat_flags,
      get_flag_mapping "label" "ext" None false = inr [tok]
      /\ commands
           (events (mkfs env (Some "/dev/x") "ext4" false (Some label) None
                         false) w)
         = [("mkfs.ext4" :: force_flags ++ [tok; slice_to 16 label]
               ++ uuid_flags ++ fat_flags ++ ["/dev/x"])%list]
      /\ String.length (slice_to 16 label) = 16
      /\ exists rest, label = slice_to 16 label ++ rest)
  /\ outcome (mkfs env (Some "/dev/x") "ext4" true (Some label) None false) w
     = inl (ValueError
              ("length of fs label for '/dev/x' exceeds max " ++ blanks33
               ++ "allowed for fstype 'ext4'. max is '16'"))
  /\ commands
       (events (mkfs env (Some "/dev/x") "ext4" true (Some label) None false)
               w)
     = [].
Proof.
  assert (Hlt : 16 < String.length "a-label-of-twenty-ch") by (simpl; lia).
  destruct (@mkfs_label_too_long _ (scripted ["/dev/x"] ["mkfs.ext4"] "xenial")
              [Exited EmptyString EmptyString] "/dev/x" "ext4" "mkfs.ext4"
              "/sbin/mkfs.ext4" "a-label-of-twenty-ch" None false 16
              eq_refl eq_refl eq_refl eq_refl Hlt) as [H1 H2].
  split; [exact H1|]. apply H2. discriminate.
Defined.

(** The fstypes of the FAT family. *)
Lemma fat_family_cases (fstype : string) :
  get_default specific_to_family fstype fstype = "fat" ->
  fstype = "fat" \/ fstype = "fat12" \/ fstype = "fat16" \/ fstype = "fat32".
Proof.
  unfold get_default, specific_to_family, get.
  repeat match goal with
    | |- context [String.eqb fstype ?k] =>
        destruct (String.eqb_spec fstype k) as [->|?];
        [try discriminate; tauto|]
    end.
  tauto.
Qed.

(** C6: for an fstype of the FAT family, with [fat_size] the fstype without
    its letters.  Unless [strict] is set together with [force], a uuid or a
    label longer than 11 (each of which raises before), [mkfs] runs
    [mkfs.fat] once, with the label flag if a label was given, then [-F] and
    [fat_size] exactly when [fat_size] is 12, 16 or 32, and nothing in their
    place otherwise, then the path; its outcome is that of the process run,
    so the fatsize step raises in no case. *)
Theorem mkfs_fatsize (W : Type) (env : Env W) (w : W) (p fstype t : string)
    (strict : bool) (label uuid : option string) (force : bool) :
  path_exists env p w = true ->
  get_default specific_to_family fstype fstype = "fat" ->
  which env "mkfs.fat" w = Some t ->
  let fat_size := strip ascii_letters fstype in
  let label_flags :=
    match label with
    | Some l =>
        ["-n"; if Nat.ltb 11 (String.length l) then slice_to 11 l else l]
    | None => []
    end in
  let fatsize_flags :=
    if contains ["12"; "16"; "32"] fat_size then ["-F"; fat_size] else [] in
  let cmd := ("mkfs.fat" :: label_flags ++ fatsize_flags ++ [p])%list in
  let raises_before :=
    strict
    && (force
        || match uuid with Some _ => true | None => false end
        || match label with
           | Some l => Nat.ltb 11 (String.length l)
           | None => false
           end) in
  let m := mkfs env (Some p) fstype strict label uuid force in
  if raises_before then
    commands (events m w) = [] /\ exists e, outcome m w = inl e
  else
    commands (events m w) = [cmd]
    /\ outcome m w = subp_outcome (fst (subp env cmd w)).
Proof.
  intros Hp Hfam Ht. cbv zeta.
  assert (Hc : get mkfs_commands fstype = Some "mkfs.fat").
  { destruct (fat_family_cases _ Hfam) as [->|[->|[->| ->]]]; reflexivity. }
  rewrite (mkfs_outcome_run env w p fstype strict label uuid force Hp Hc Ht).
  rewrite (mkfs_commands_run env w p fstype strict label uuid force Hp Hc Ht).
  unfold mkfs_argv. rewrite Hfam.
  change (get label_length_limits "fat") with (Some 11).
  destruct (fat_family_cases _ Hfam) as [->|[->|[->| ->]]];
    destruct label as [l|];
    try destruct (Nat.ltb 11 (String.length l));
    destruct strict, force, uuid as [u|];
    try destruct (String.eqb (lsb_codename env w) "precise");
    cbn [andb orb];
    first [split; reflexivity | split; [reflexivity|eexists; reflexivity]].
Qed.

Lemma mkfs_fatsize_witness :
  let env := scripted ["/dev/x"] ["mkfs.fat"] "xenial" in
  let w := [Exited EmptyString EmptyString] in
  let m := mkfs env (Some "/dev/x") "fat32" true (Some "BOOT") None false in
  commands (events m w) = [["mkfs.fat"; "-n"; "BOOT"; "-F"; "32"; "/dev/x"]]
  /\ outcome m w = inr tt.
Proof.
  exact (@mkfs_fatsize _ (scripted ["/dev/x"] ["mkfs.fat"] "xenial")
           [Exited EmptyString EmptyString] "/dev/x" "fat32" "/sbin/mkfs.fat"
           true (Some "BOOT") None false eq_refl eq_refl eq_refl).
Defined.

(* ================================================================== *)
(** * Runs on concrete inputs *)
(* ================================================================== *)

Example get_flag_mapping_label_ext :
  get_flag_mapping "label" "ext" (Some "root") true = inr ["-L"; "root"].
Proof. reflexivity. Qed.

Example get_flag_mapping_unknown_flag :
  get_flag_mapping "bogus" "ext" None false
  = inl (ValueError "unsupported flag 'bogus'").
Proof. reflexivity. Qed.

Example strip_fat_sizes :
  map (strip ascii_letters) ["fat"; "fat12"; "fat16"; "fat32"]
  = [EmptyString; "12"; "16"; "32"].
Proof. reflexivity. Qed.

Example rstrip_newlines :
  rstrip nl ("key" ++ nl ++ "ring" ++ nl ++ nl) = "key" ++ nl ++ "ring".
Proof. reflexivity. Qed.

(** A label of exactly the limit is passed on as it is. *)
Example mkfs_ext4_label_of_16 :
  commands
    (events (mkfs (scripted ["/dev/x"] ["mkfs.ext4"] "xenial") (Some "/dev/x")
                  "ext4" false (Some "toolongname12345") None false)
            [Exited EmptyString EmptyString])
  = [["mkfs.ext4"; "-L"; "toolongname12345"; "/dev/x"]].
Proof. reflexivity. Qed.

Example mkfs_ext4_label_of_19_forced :
  commands
    (events (mkfs (scripted ["/dev/x"] ["mkfs.ext4"] "xenial") (Some "/dev/x")
                  "ext4" false (Some "toolongname12345678") None true)
            [Exited EmptyString EmptyString])
  = [["mkfs.ext4"; "-F"; "-L"; "toolongname12345"; "/dev/x"]].
Proof. reflexivity. Qed.

(** [fat99] is no key of [mkfs_commands]: it is refused before any flag is
    looked at. *)
Example mkfs_fat99_unsupported :
  run (mkfs (scripted ["/dev/x"] ["mkfs.fat"] "xenial") (Some "/dev/x")
            "fat99" false None None false)
      [Exited EmptyString EmptyString]
  = (inl (ValueError "unsupported fs type 'fat99'"),
     {| world := [Exited EmptyString EmptyString];
        trace := [EvExists "/dev/x" true] |}).
Proof. reflexivity. Qed.

(** Strict mode, [force] on a family without a force token: the error is the
    [TypeError] of the format in [get_flag_mapping]. *)
Example mkfs_fat32_strict_forced :
  outcome (mkfs (scripted ["/dev/x"] ["mkfs.fat"] "xenial") (Some "/dev/x")
                "fat32" true None None true)
          [Exited EmptyString EmptyString]
  = inl (TypeError "not enough arguments for format string").
Proof. reflexivity. Qed.

Example mkfs_btrfs_forced_on_xenial :
  commands
    (events (mkfs (scripted ["/dev/x"] ["mkfs.btrfs"] "xenial") (Some "/dev/x")
                  "btrfs" true None (Some "1234-abcd") true)
            [Exited EmptyString EmptyString])
  = [["mkfs.btrfs"; "--force"; "--uuid"; "1234-abcd"; "/dev/x"]].
Proof. reflexivity. Qed.

Example mkfs_from_config_forces :
  commands
    (events (mkfs_from_config (scripted ["/dev/x"] ["mkswap"] "xenial")
               (Some "/dev/x") [("fstype", "swap"); ("label", "swap0")] true)
            [Exited EmptyString EmptyString])
  = [["mkswap"; "--force"; "--label"; "swap0"; "/dev/x"]].
Proof. reflexivity. Qed.


(* ================================================================== *)
(** * [get_flag_mapping]: the remaining cases *)
(* ================================================================== *)

(** X1: a flag name that is no key of [family_flag_mappings] makes
    [get_flag_mapping] raise [ValueError] naming it, whatever the family,
    the parameter and [strict]. *)
Theorem get_flag_mapping_unknown (flag_name fs_family : string)
    (param : option string) (strict : bool) :
  get family_flag_mappings flag_name = None ->
  get_flag_mapping flag_name fs_family param strict
  = inl (ValueError ("unsupported flag '" ++ flag_name ++ "'")).
Proof.
  intros H. unfold get_flag_mapping. rewrite H. reflexivity.
Qed.

Lemma get_flag_mapping_unknown_witness :
  get family_flag_mappings "verbose" = None
  /\ get_flag_mapping "verbose" "ext" (Some "x") true
     = inl (ValueError "unsupported flag 'verbose'").
Proof.
  split; [reflexivity|].
  apply (@get_flag_mapping_unknown "verbose" "ext" (Some "x") true).
  reflexivity.
Defined.

(** X2: every normal return of [get_flag_mapping] is either the empty list,
    and then the call was not strict and the family has no token for the
    flag, or the family's token followed by the parameter if there is one;
    so a parameter never goes out without its flag, and the list has at
    most two elements. *)
Theorem get_flag_mapping_returns (flag_name fs_family : string)
    (param : option string) (strict : bool) (flag : list string) :
  get_flag_mapping flag_name fs_family param strict = inr flag ->
  (flag = [] /\ strict = false /\ supports flag_name fs_family = false)
  \/ (exists families tok,
         get family_flag_mappings flag_name = Some families
         /\ get families fs_family = Some tok
         /\ flag = tok :: param_list param).
Proof.
  unfold get_flag_mapping, supports.
  destruct (get family_flag_mappings flag_name) as [m|] eqn:Hm.
  - destruct (get m fs_family) as [tok|] eqn:Htok.
    + intros H. right. exists m, tok.
      split; [reflexivity|split; [exact Htok|]].
      destruct param; injection H as <-; reflexivity.
    + destruct strict; [discriminate|]. intros [= <-]. left. repeat split.
  - destruct (format _ _); discriminate.
Qed.

Lemma get_flag_mapping_returns_witness :
  get_flag_mapping "uuid" "swap" (Some "1234") true = inr ["--uuid"; "1234"]
  /\ ((["--uuid"; "1234"] = [] /\ true = false
       /\ supports "uuid" "swap" = false)
      \/ (exists families tok,
             get family_flag_mappings "uuid" = Some families
             /\ get families "swap" = Some tok
             /\ ["--uuid"; "1234"] = tok :: param_list (Some "1234"))).
Proof.
  split; [reflexivity|].
  apply (@get_flag_mapping_returns "uuid" "swap" (Some "1234") true
           ["--uuid"; "1234"]).
  reflexivity.
Defined.

(* ================================================================== *)
(** * [mkfs]: the checks before the command is assembled *)
(* ================================================================== *)

Lemma mkfs_commands_nonempty (fstype c : string) :
  get mkfs_commands fstype = Some c -> exists a s, c = String a s.
Proof.
  intros H. apply get_In in H. simpl in H.
  repeat (destruct H as [[= _ <-]|H]; [eauto|]). destruct H.
Qed.

Ltac mkfs_unfold :=
  unfold run, mkfs, bind, os_path_exists, util_which, raise_ValueError,
    lift, ret, raise;
  cbn [world trace negb].

Lemma mkfs_run_no_path (W : Type) (env : Env W) (w : W) (fstype : string)
    (strict : bool) (label uuid : option string) (force : bool) :
  run (mkfs env None fstype strict label uuid force) w
  = (inl (ValueError "invalid block dev path 'None'"),
     {| world := w; trace := [] |}).
Proof. reflexivity. Qed.

Lemma mkfs_run_missing_path (W : Type) (env : Env W) (w : W)
    (p fstype : string) (strict : bool) (label uuid : option string)
    (force : bool) :
  path_exists env p w = false ->
  run (mkfs env (Some p) fstype strict label uuid force) w
  = (inl (ValueError ("'" ++ p ++ "': no such file or directory")),
     {| world := w; trace := [EvExists p false] |}).
Proof. intros H. mkfs_unfold. rewrite H. reflexivity. Qed.

Lemma mkfs_run_unsupported (W : Type) (env : Env W) (w : W)
    (p fstype : string) (strict : bool) (label uuid : option string)
    (force : bool) :
  path_exists env p w = true ->
  get mkfs_commands fstype = None ->
  run (mkfs env (Some p) fstype strict label uuid force) w
  = (inl (ValueError ("unsupported fs type '" ++ fstype ++ "'")),
     {| world := w; trace := [EvExists p true] |}).
Proof. intros H Hc. mkfs_unfold. rewrite H, Hc. reflexivity. Qed.

Lemma mkfs_run_no_tool (W : Type) (env : Env W) (w : W)
    (p fstype c : string) (strict : bool) (label uuid : option string)
    (force : bool) :
  path_exists env p w = true ->
  get mkfs_commands fstype = Some c ->
  which env c w = None ->
  run (mkfs env (Some p) fstype strict label uuid force) w
  = (inl (ValueError ("need '" ++ c ++ "' but it could not be found")),
     {| world := w; trace := [EvExists p true; EvWhich c None] |}).
Proof.
  intros H Hc Ht.
  destruct (mkfs_commands_nonempty _ Hc) as (a & s & ->).
  mkfs_unfold. rewrite H, Hc. cbn [negb world trace]. rewrite Ht.
  reflexivity.
Qed.

(** X3: for a path that exists and an fstype that is no key of
    [mkfs_commands], [mkfs] raises [ValueError] naming the fstype; it has
    looked for no tool, asked for no release and run nothing, and the world
    is as it was. *)
Theorem mkfs_unsupported_fstype (W : Type) (env : Env W) (w : W)
    (p fstype : string) (strict : bool) (label uuid : option string)
    (force : bool) :
  path_exists env p w = true ->
  get mkfs_commands fstype = None ->
  let m := mkfs env (Some p) fstype strict label uuid force in
  outcome m w = inl (ValueError ("unsupported fs type '" ++ fstype ++ "'"))
  /\ existsb is_external (events m w) = false
  /\ world (snd (run m w)) = w.
Proof.
  intros H Hc. cbv zeta. unfold outcome, events.
  rewrite (mkfs_run_unsupported env w p fstype strict label uuid force H Hc).
  repeat split.
Qed.

Lemma mkfs_unsupported_fstype_witness :
  let env := scripted ["/dev/x"] ["mkfs.fat"] "xenial" in
  let w := [Exited EmptyString EmptyString] in
  let m := mkfs env (Some "/dev/x") "vfat" false None None true in
  outcome m w = inl (ValueError "unsupported fs type 'vfat'")
  /\ existsb is_external (events m w) = false
  /\ world (snd (run m w)) = w.
Proof.
  exact (@mkfs_unsupported_fstype _
           (scripted ["/dev/x"] ["mkfs.fat"] "xenial")
           [Exited EmptyString EmptyString] "/dev/x" "vfat" false None None
           true eq_refl eq_refl).
Defined.

(** X4: when [util.which] does not find the tool of the fstype, [mkfs]
    raises [ValueError] naming the tool, whatever flags were asked for; the
    release is not asked for and nothing is run. *)
Theorem mkfs_tool_not_found (W : Type) (env : Env W) (w : W)
    (p fstype c : string) (strict : bool) (label uuid : option string)
    (force : bool) :
  path_exists env p w = true ->
  get mkfs_commands fstype = Some c ->
  which env c w = None ->
  let m := mkfs env (Some p) fstype strict label uuid force in
  outcome m w
  = inl (ValueError ("need '" ++ c ++ "' but it could not be found"))
  /\ events m w = [EvExists p true; EvWhich c None]
  /\ world (snd (run m w)) = w.
Proof.
  intros H Hc Ht. cbv zeta. unfold outcome, events.
  rewrite (mkfs_run_no_tool env w p fstype strict label uuid force H Hc Ht).
  repeat split.
Qed.

Lemma mkfs_tool_not_found_witness :
  let env := scripted ["/dev/x"] ["mkfs.ext4"] "xenial" in
  let w := [Exited EmptyString EmptyString] in
  let m := mkfs env (Some "/dev/x") "jfs" true (Some "data") None true in
  outcome m w
  = inl (ValueError "need 'jfs_mkfs' but it could not be found")
  /\ events m w = [EvExists "/dev/x" true; EvWhich "jfs_mkfs" None]
  /\ world (snd (run m w)) = w.
Proof.
  exact (@mkfs_tool_not_found _
           (scripted ["/dev/x"] ["mkfs.ext4"] "xenial")
           [Exited EmptyString EmptyString] "/dev/x" "jfs" "jfs_mkfs" true
           (Some "data") None true eq_refl eq_refl eq_refl).
Defined.

(* ================================================================== *)
(** * [mkfs]: what holds on every call *)
(* ================================================================== *)

Lemma mkfs_events_run (W : Type) (env : Env W) (w : W)
    (p fstype c t : string) (strict : bool) (label uuid : option string)
    (force : bool) :
  path_exists env p w = true ->
  get mkfs_commands fstype = Some c ->
  which env c w = Some t ->
  events (mkfs env (Some p) fstype strict label uuid force) w
  = (mkfs_prelude env w p c force
     ++ match mkfs_argv (lsb_codename env w) p fstype c strict label uuid
                force with
        | inl _ => []
        | inr cmd => [EvSubp cmd (fst (subp env cmd w))]
        end)%list.
Proof.
  intros Hp Hc Ht. unfold events.
  rewrite (mkfs_run env w p fstype strict label uuid force Hp Hc Ht).
  destruct (mkfs_argv _ _ _ _ _ _ _ _); cbn [snd trace];
    rewrite ?app_nil_r; reflexivity.
Qed.

(** Every assembled command starts with the tool and ends with the path. *)
Lemma mkfs_argv_shape (codename p fstype c : string) (strict : bool)
    (label uuid : option string) (force : bool) (cmd : list string) :
  mkfs_argv codename p fstype c strict label uuid force = inr cmd ->
  exists mid, cmd = (c :: mid ++ [p])%list.
Proof.
  unfold mkfs_argv. cbn [and_then].
  argv_cases; intros [= <-]; cbn [app];
    first [exists []; reflexivity | eexists; reflexivity].
Qed.

(** The errors of [get_flag_mapping] and of the assembly are [ValueError]
    and [TypeError] only. *)
Lemma get_flag_mapping_error (flag_name fs_family : string)
    (param : option string) (strict : bool) (e : exn) :
  get_flag_mapping flag_name fs_family param strict = inl e ->
  forall d, e <> ProcessExecutionError d.
Proof.
  unfold get_flag_mapping.
  destruct (get family_flag_mappings flag_name) as [m|].
  - destruct (get m fs_family); [destruct param; discriminate|].
    destruct strict; [|discriminate]. simpl. intros [= <-] d. discriminate.
  - simpl. intros [= <-] d. discriminate.
Qed.

Lemma mkfs_argv_error (codename p fstype c : string) (strict : bool)
    (label uuid : option string) (force : bool) (e : exn) :
  mkfs_argv codename p fstype c strict label uuid force = inl e ->
  forall d, e <> ProcessExecutionError d.
Proof.
  unfold mkfs_argv. rewrite ?format_label_too_long.
  argv_cases;
    try (rewrite format_label_too_long in *; cbn [and_then]; argv_cases);
    intros [= <-];
    try (intros d; discriminate);
    eauto using get_flag_mapping_error.
Qed.

(** X5: on every call, [mkfs] runs at most one process, and the one it runs
    has the tool of the fstype first and the path last. *)
Theorem mkfs_single_command (W : Type) (env : Env W) (w : W)
    (path : option string) (fstype : string) (strict : bool)
    (label uuid : option string) (force : bool) :
  let tr := events (mkfs env path fstype strict label uuid force) w in
  commands tr = []
  \/ exists p c mid,
       path = Some p
       /\ get mkfs_commands fstype = Some c
       /\ commands tr = [(c :: mid ++ [p])%list].
Proof.
  cbv zeta.
  destruct path as [p|]; [|left; reflexivity].
  destruct (path_exists env p w) eqn:Hp;
    [|left; unfold events;
      now rewrite (mkfs_run_missing_path env w p fstype strict label uuid
                     force Hp)].
  destruct (get mkfs_commands fstype) as [c|] eqn:Hc;
    [|left; unfold events;
      now rewrite (mkfs_run_unsupported env w p fstype strict label uuid
                     force Hp Hc)].
  destruct (which env c w) as [t|] eqn:Ht;
    [|left; unfold events;
      now rewrite (mkfs_run_no_tool env w p fstype strict label uuid
                     force Hp Hc Ht)].
  rewrite (mkfs_commands_run env w p fstype strict label uuid force Hp Hc Ht).
  destruct (mkfs_argv (lsb_codename env w) p fstype c strict label uuid force)
    as [e|cmd] eqn:E; [left; reflexivity|].
  right. destruct (mkfs_argv_shape _ _ _ _ _ _ _ _ E) as [mid ->].
  exists p, c, mid. repeat split.
Qed.

(** X6: when [mkfs] raises, either the error is the [ProcessExecutionError]
    of the one process it ran, or it is another error and then nothing was
    run and the world is as it was: no check can fail after the tool has
    touched the device. *)
Theorem mkfs_raises_before_run (W : Type) (env : Env W) (w : W)
    (path : option string) (fstype : string) (strict : bool)
    (label uuid : option string) (force : bool) (e : exn) :
  let m := mkfs env path fstype strict label uuid force in
  outcome m w = inl e ->
  match e with
  | ProcessExecutionError d =>
      exists cmd,
        commands (events m w) = [cmd]
        /\ In (EvSubp cmd (Failed d)) (events m w)
  | _ => commands (events m w) = [] /\ world (snd (run m w)) = w
  end.
Proof.
  cbv zeta. unfold outcome.
  destruct path as [p|];
    [|rewrite mkfs_run_no_path; intros [= <-]; split; reflexivity].
  destruct (path_exists env p w) eqn:Hp;
    [|unfold events;
      rewrite (mkfs_run_missing_path env w p fstype strict label uuid
                 force Hp); intros [= <-]; split; reflexivity].
  destruct (get mkfs_commands fstype) as [c|] eqn:Hc;
    [|unfold events;
      rewrite (mkfs_run_unsupported env w p fstype strict label uuid
                 force Hp Hc); intros [= <-]; split; reflexivity].
  destruct (which env c w) as [t|] eqn:Ht;
    [|unfold events;
      rewrite (mkfs_run_no_tool env w p fstype strict label uuid
                 force Hp Hc Ht); intros [= <-]; split; reflexivity].
  rewrite (mkfs_commands_run env w p fstype strict label uuid force Hp Hc Ht).
  rewrite (mkfs_events_run env w p fstype strict label uuid force Hp Hc Ht).
  rewrite (mkfs_run env w p fstype strict label uuid force Hp Hc Ht).
  destruct (mkfs_argv (lsb_codename env w) p fstype c strict label uuid force)
    as [e'|cmd] eqn:E; cbn [fst snd world].
  - intros [= <-]. pose proof (mkfs_argv_error _ _ _ _ _ _ _ _ E) as Hk.
    destruct e'; try (split; reflexivity). now destruct (Hk descr).
  - destruct (subp env cmd w) as [[out err|d] w']; cbn [fst subp_outcome];
      [discriminate|]. intros [= <-]. exists cmd. split; [reflexivity|].
    apply in_or_app. right. now left.
Qed.

Lemma mkfs_raises_before_run_witness :
  let env := scripted ["/dev/x"] ["mkfs.xfs"] "xenial" in
  let w := [Failed "mkfs.xfs: /dev/x contains a mounted filesystem"] in
  let m := mkfs env (Some "/dev/x") "xfs" false (Some "data") None true in
  exists cmd,
    commands (events m w) = [cmd]
    /\ In (EvSubp cmd
             (Failed "mkfs.xfs: /dev/x contains a mounted filesystem"))
          (events m w).
Proof.
  exact (@mkfs_raises_before_run _
           (scripted ["/dev/x"] ["mkfs.xfs"] "xenial")
           [Failed "mkfs.xfs: /dev/x contains a mounted filesystem"]
           (Some "/dev/x") "xfs" false (Some "data") None true
           (ProcessExecutionError
              "mkfs.xfs: /dev/x contains a mounted filesystem")
           eq_refl).
Defined.

(* ================================================================== *)
(** * [mkfs]: strict and non-strict calls *)
(* ================================================================== *)

(** Without [strict], the assembly of the command of an accepted fstype
    never raises. *)
Lemma mkfs_argv_nonstrict (codename p fstype c : string)
    (label uuid : option string) (force : bool) :
  get mkfs_commands fstype = Some c ->
  exists cmd,
    mkfs_argv codename p fstype c false label uuid force = inr cmd.
Proof.
  intros Hc. destruct (supported_fstype_has_limit _ Hc) as [limit Hlim].
  unfold mkfs_argv.
  set (fam := get_default specific_to_family fstype fstype) in *.
  rewrite Hlim.
  destruct (@get_flag_mapping_nonstrict "force" fam None) as [F HF];
    [discriminate|].
  destruct (@get_flag_mapping_nonstrict "fatsize" fam
              (Some (strip ascii_letters fstype))) as [S HS];
    [discriminate|].
  rewrite HF, HS.
  destruct label as [l|];
    [destruct (@get_flag_mapping_nonstrict "label" fam
                 (Some (slice_to limit l))) as [L1 HL1]; [discriminate|];
     destruct (@get_flag_mapping_nonstrict "label" fam (Some l))
       as [L2 HL2]; [discriminate|];
     rewrite ?HL1, ?HL2|];
    (destruct uuid as [u|];
     [destruct (@get_flag_mapping_nonstrict "uuid" fam (Some u))
        as [U HU]; [discriminate|]; rewrite HU|]);
    argv_cases; rewrite ?HL1, ?HL2; cbn [and_then]; argv_cases; eauto.
Qed.

(** X7: without [strict], once the path exists, the fstype is accepted and
    its tool is found, [mkfs] always gets to run the tool, exactly once,
    whatever label, uuid and force were asked for, and its outcome is that
    of the process: no flag and no label makes a non-strict call fail. *)
Theorem mkfs_nonstrict_runs (W : Type) (env : Env W) (w : W)
    (p fstype c t : string) (label uuid : option string) (force : bool) :
  path_exists env p w = true ->
  get mkfs_commands fstype = Some c ->
  which env c w = Some t ->
  let m := mkfs env (Some p) fstype false label uuid force in
  exists cmd,
    commands (events m w) = [cmd]
    /\ outcome m w = subp_outcome (fst (subp env cmd w))
    /\ world (snd (run m w)) = snd (subp env cmd w).
Proof.
  intros Hp Hc Ht. cbv zeta.
  destruct (@mkfs_argv_nonstrict (lsb_codename env w) p fstype c label uuid
              force Hc) as [cmd E].
  exists cmd.
  rewrite (mkfs_commands_run env w p fstype false label uuid force Hp Hc Ht).
  rewrite (mkfs_outcome_run env w p fstype false label uuid force Hp Hc Ht).
  rewrite (mkfs_world_run env w p fstype false label uuid force Hp Hc Ht).
  rewrite E. repeat split.
Qed.

Lemma mkfs_nonstrict_runs_witness :
  let env := scripted ["/dev/x"] ["jfs_mkfs"] "xenial" in
  let w := [Exited EmptyString EmptyString] in
  let m := mkfs env (Some "/dev/x") "jfs" false
                (Some "a-label-longer-than-sixteen") (Some "1234") true in
  exists cmd,
    commands (events m w) = [cmd]
    /\ outcome m w = subp_outcome (fst (subp env cmd w))
    /\ world (snd (run m w)) = snd (subp env cmd w).
Proof.
  exact (@mkfs_nonstrict_runs _ (scripted ["/dev/x"] ["jfs_mkfs"] "xenial")
           [Exited EmptyString EmptyString] "/dev/x" "jfs" "jfs_mkfs"
           "/sbin/jfs_mkfs" (Some "a-label-longer-than-sixteen")
           (Some "1234") true eq_refl eq_refl eq_refl).
Defined.

(** When every requested flag has a token and the label fits, [strict]
    changes nothing in the assembled command. *)
Lemma mkfs_argv_strict_irrelevant (codename p fstype c : string)
    (label uuid : option string) (force : bool) :
  let fs_family := get_default specific_to_family fstype fstype in
  (force = true -> supports "force" fs_family = true) ->
  (uuid <> None -> supports "uuid" fs_family = true) ->
  (forall l limit,
      label = Some l ->
      get label_length_limits fs_family = Some limit ->
      String.length l <= limit) ->
  mkfs_argv codename p fstype c true label uuid force
  = mkfs_argv codename p fstype c false label uuid force.
Proof.
  cbv zeta. intros Hforce Huuid Hlabel.
  unfold mkfs_argv.
  set (fam := get_default specific_to_family fstype fstype) in *.
  assert (HF : get_flag_mapping "force" fam None true
               = get_flag_mapping "force" fam None false \/ force = false).
  { destruct force; [left|now right].
    destruct (get_flag_mapping_supported "force" fam (Hforce eq_refl))
      as [tok Htok]. now rewrite !Htok. }
  assert (HU : forall u, uuid = Some u ->
               get_flag_mapping "uuid" fam (Some u) true
               = get_flag_mapping "uuid" fam (Some u) false).
  { intros u ->.
    destruct (get_flag_mapping_supported "uuid" fam) as [tok Htok];
      [apply Huuid; discriminate|]. now rewrite !Htok. }
  assert (HS : String.eqb fam "fat" = true ->
               forall x, get_flag_mapping "fatsize" fam (Some x) true
                         = get_flag_mapping "fatsize" fam (Some x) false).
  { intros E x. apply String.eqb_eq in E. rewrite E. reflexivity. }
  assert (HL : forall l limit, label = Some l ->
               get label_length_limits fam = Some limit ->
               Nat.ltb limit (String.length l) = false
               /\ get_flag_mapping "label" fam (Some l) true
                  = get_flag_mapping "label" fam (Some l) false).
  { intros l limit -> Hlim. split.
    - apply Nat.ltb_ge. now apply (Hlabel l limit).
    - destruct (get_flag_mapping_supported "label" fam
                  (limit_supports_label fam Hlim)) as [tok Htok].
      now rewrite !Htok. }
  destruct force;
    [destruct HF as [HF|HF]; [rewrite HF|discriminate HF]|];
    (destruct label as [l|];
     [destruct (get label_length_limits fam) as [limit|] eqn:Hlim;
      [destruct (HL l limit eq_refl eq_refl) as [Hlt Hgl]; rewrite Hlt;
       cbn [and_then]; rewrite Hgl|]|]);
    (destruct uuid as [u|]; [rewrite (HU u eq_refl)|]);
    (destruct (String.eqb fam "fat") eqn:Efat;
     [rewrite (HS eq_refl)|]);
    reflexivity.
Qed.

(** X8: [strict] makes no difference to a call whose label (if any) is not
    longer than the limit of the family and whose force and uuid requests
    (if any) are for a family that has the token: the strict and the
    non-strict call have the same outcome, make the same calls and leave
    the same world, on every path and fstype. *)
Theorem mkfs_strict_irrelevant (W : Type) (env : Env W) (w : W)
    (path : option string) (fstype : string) (label uuid : option string)
    (force : bool) :
  let fs_family := get_default specific_to_family fstype fstype in
  (force = true -> supports "force" fs_family = true) ->
  (uuid <> None -> supports "uuid" fs_family = true) ->
  (forall l limit,
      label = Some l ->
      get label_length_limits fs_family = Some limit ->
      String.length l <= limit) ->
  run (mkfs env path fstype true label uuid force) w
  = run (mkfs env path fstype false label uuid force) w.
Proof.
  cbv zeta. intros Hforce Huuid Hlabel.
  destruct path as [p|]; [|reflexivity].
  destruct (path_exists env p w) eqn:Hp;
    [|now rewrite !(mkfs_run_missing_path env w p fstype _ label uuid
                      force Hp)].
  destruct (get mkfs_commands fstype) as [c|] eqn:Hc;
    [|now rewrite !(mkfs_run_unsupported env w p fstype _ label uuid
                      force Hp Hc)].
  destruct (which env c w) as [t|] eqn:Ht;
    [|now rewrite !(mkfs_run_no_tool env w p fstype _ label uuid
                      force Hp Hc Ht)].
  rewrite !(mkfs_run env w p fstype _ label uuid force Hp Hc Ht).
  now rewrite (@mkfs_argv_strict_irrelevant (lsb_codename env w) p fstype c
                 label uuid force Hforce Huuid Hlabel).
Qed.

Lemma mkfs_strict_irrelevant_witness :
  let env := scripted ["/dev/x"] ["mkfs.ext4"] "xenial" in
  let w := [Exited EmptyString EmptyString] in
  run (mkfs env (Some "/dev/x") "ext4" true (Some "root") (Some "1234") true)
      w
  = run (mkfs env (Some "/dev/x") "ext4" false (Some "root") (Some "1234")
              true) w.
Proof.
  apply (@mkfs_strict_irrelevant _
           (scripted ["/dev/x"] ["mkfs.ext4"] "xenial")
           [Exited EmptyString EmptyString] (Some "/dev/x") "ext4"
           (Some "root") (Some "1234") true).
  - intros _. reflexivity.
  - intros _. reflexivity.
  - intros l limit [= <-] [= <-]. simpl. lia.
Defined.

Lemma mkfs_argv_uuid_dropped (codename p fstype c u : string) (strict : bool)
    (label : option string) (force : bool) :
  get_flag_mapping "uuid" (get_default specific_to_family fstype fstype)
    (Some u) strict = inr [] ->
  mkfs_argv codename p fstype c strict label (Some u) force
  = mkfs_argv codename p fstype c strict label None force.
Proof.
  intros H. unfold mkfs_argv. rewrite H.
  match goal with
  | |- and_then ?A _ = and_then ?A _ => destruct A as [e|cmd1]
  end; cbn [and_then]; [reflexivity|].
  match goal with
  | |- and_then ?A _ = and_then ?A _ => destruct A as [e|cmd2]
  end; cbn [and_then]; [reflexivity|].
  now rewrite app_nil_r.
Qed.

(** X9: without [strict], a uuid asked for a family that has no uuid token
    (fat, jfs, ntfs, xfs) is dropped without a trace: the call behaves as
    the call without a uuid, on every path and fstype. *)
Theorem mkfs_uuid_dropped (W : Type) (env : Env W) (w : W)
    (path : option string) (fstype u : string) (label : option string)
    (force : bool) :
  supports "uuid" (get_default specific_to_family fstype fstype) = false ->
  run (mkfs env path fstype false label (Some u) force) w
  = run (mkfs env path fstype false label None force) w.
Proof.
  intros Hsup.
  destruct path as [p|]; [|reflexivity].
  destruct (path_exists env p w) eqn:Hp;
    [|now rewrite !(mkfs_run_missing_path env w p fstype false label _
                      force Hp)].
  destruct (get mkfs_commands fstype) as [c|] eqn:Hc;
    [|now rewrite !(mkfs_run_unsupported env w p fstype false label _
                      force Hp Hc)].
  destruct (which env c w) as [t|] eqn:Ht;
    [|now rewrite !(mkfs_run_no_tool env w p fstype false label _
                      force Hp Hc Ht)].
  rewrite !(mkfs_run env w p fstype false label _ force Hp Hc Ht).
  rewrite mkfs_argv_uuid_dropped; [reflexivity|].
  apply get_flag_mapping_unsupported; [discriminate|exact Hsup].
Qed.

Lemma mkfs_uuid_dropped_witness :
  let env := scripted ["/dev/x"] ["mkfs.xfs"] "xenial" in
  let w := [Exited EmptyString EmptyString] in
  supports "uuid" "xfs" = false
  /\ run (mkfs env (Some "/dev/x") "xfs" false (Some "data") (Some "1234")
               true) w
     = run (mkfs env (Some "/dev/x") "xfs" false (Some "data") None true) w.
Proof.
  split; [reflexivity|].
  apply (@mkfs_uuid_dropped _ (scripted ["/dev/x"] ["mkfs.xfs"] "xenial")
           [Exited EmptyString EmptyString] (Some "/dev/x") "xfs" "1234"
           (Some "data") true).
  reflexivity.
Defined.

Lemma fitted_length (limit : nat) (label : string) :
  String.length (fitted limit label) <= limit.
Proof.
  unfold fitted. destruct (Nat.ltb limit (String.length label)) eqn:E.
  - apply Nat.ltb_lt in E. rewrite slice_to_length; lia.
  - now apply Nat.ltb_ge in E.
Qed.

Lemma mkfs_argv_label (codename p fstype c label : string)
    (uuid : option string) (force : bool) (limit : nat) :
  get label_length_limits (get_default specific_to_family fstype fstype)
  = Some limit ->
  exists tok force_flags uuid_flags fat_flags,
    get_flag_mapping "label" (get_default specific_to_family fstype fstype)
      None false = inr [tok]
    /\ mkfs_argv codename p fstype c false (Some label) uuid force
       = inr (c :: force_flags ++ [tok; fitted limit label]
                ++ uuid_flags ++ fat_flags ++ [p])%list.
Proof.
  intros Hlim.
  destruct (Nat.ltb limit (String.length label)) eqn:Hltb.
  - apply Nat.ltb_lt in Hltb.
    destruct (@mkfs_argv_truncates codename p fstype c label uuid force limit
                Hlim Hltb) as (tok & F & U & S & Htok & H).
    exists tok, F, U, S. split; [exact Htok|].
    unfold fitted. apply Nat.ltb_lt in Hltb. now rewrite Hltb.
  - unfold mkfs_argv, fitted.
    set (fam := get_default specific_to_family fstype fstype) in *.
    rewrite Hlim, Hltb. cbn [and_then].
    destruct (get_flag_mapping_supported "label" fam
                (limit_supports_label fam Hlim)) as [tok Htok].
    rewrite (Htok (Some label) false).
    destruct (@get_flag_mapping_nonstrict "force" fam None) as [F HF];
      [discriminate|].
    destruct (@get_flag_mapping_nonstrict "fatsize" fam
                (Some (strip ascii_letters fstype))) as [S HS];
      [discriminate|].
    assert (HU : exists U,
               match uuid with
               | Some u =>
                   and_then (get_flag_mapping "uuid" fam (Some u) false)
                            (fun flag => inr flag)
               | None => inr []
               end = @inr exn _ U).
    { destruct uuid as [u|]; [|eauto].
      destruct (@get_flag_mapping_nonstrict "uuid" fam (Some u)) as [U HU];
        [discriminate|].
      exists U. now rewrite HU. }
    destruct HU as [U HU].
    exists tok,
      (if force then
         if negb (String.eqb codename "precise" && String.eqb fstype "btrfs")
         then F else []
       else []),
      U,
      (if String.eqb fam "fat" then
         if contains ["12"; "16"; "32"] (strip ascii_letters fstype)
         then S else []
       else []).
    split; [apply (Htok None false)|].
    rewrite HF, HS.
    destruct uuid as [u|];
      [destruct (get_flag_mapping "uuid" fam (Some u) false) as [e|U'];
         [discriminate HU|]; injection HU as <-
      |injection HU as <-];
      destruct force,
        (negb (String.eqb codename "precise" && String.eqb fstype "btrfs")),
        (String.eqb fam "fat"),
        (contains ["12"; "16"; "32"] (strip ascii_letters fstype));
      cbn [and_then app]; rewrite <- ?app_assoc; cbn [app];
      rewrite ?app_nil_r; reflexivity.
Qed.

(** X10: without [strict], a label is never dropped and never goes out
    longer than the limit of the family: the one process run has the
    family's label token followed by a prefix of the label that is not
    longer than the limit, and that is the label itself when the label
    fits. *)
Theorem mkfs_label_within_limit (W : Type) (env : Env W) (w : W)
    (p fstype c t label : string) (uuid : option string) (force : bool)
    (limit : nat) :
  path_exists env p w = true ->
  get mkfs_commands fstype = Some c ->
  which env c w = Some t ->
  get label_length_limits (get_default specific_to_family fstype fstype)
  = Some limit ->
  exists tok sent force_flags uuid_flags fat_flags,
    get_flag_mapping "label" (get_default specific_to_family fstype fstype)
      None false = inr [tok]
    /\ commands
         (events (mkfs env (Some p) fstype false (Some label) uuid force) w)
       = [(c :: force_flags ++ [tok; sent]
             ++ uuid_flags ++ fat_flags ++ [p])%list]
    /\ String.length sent <= limit
    /\ (exists rest, label = sent ++ rest)
    /\ (String.length label <= limit -> sent = label).
Proof.
  intros Hp Hc Ht Hlim.
  destruct (@mkfs_argv_label (lsb_codename env w) p fstype c label uuid force
              limit Hlim) as (tok & F & U & S & Htok & Hargv).
  exists tok, (fitted limit label), F, U, S.
  split; [exact Htok|]. split; [|split; [|split]].
  - rewrite (mkfs_commands_run env w p fstype false (Some label) uuid force
               Hp Hc Ht), Hargv. reflexivity.
  - apply fitted_length.
  - unfold fitted. destruct (Nat.ltb limit (String.length label)).
    + apply slice_to_prefix.
    + exists EmptyString. now rewrite append_empty_r.
  - intros Hle. unfold fitted.
    apply Nat.ltb_ge in Hle. now rewrite Hle.
Qed.

Lemma mkfs_label_within_limit_witness :
  let env := scripted ["/dev/x"] ["mkswap"] "xenial" in
  let w := [Exited EmptyString EmptyString] in
  exists tok sent force_flags uuid_flags fat_flags,
    get_flag_mapping "label" "swap" None false = inr [tok]
    /\ commands
         (events (mkfs env (Some "/dev/x") "swap" false (Some "swap0")
                       (Some "1234") true) w)
       = [("mkswap" :: force_flags ++ [tok; sent]
             ++ uuid_flags ++ fat_flags ++ ["/dev/x"])%list]
    /\ String.length sent <= 15
    /\ (exists rest, "swap0" = sent ++ rest)
    /\ (String.length "swap0" <= 15 -> sent = "swap0").
Proof.
  exact (@mkfs_label_within_limit _
           (scripted ["/dev/x"] ["mkswap"] "xenial")
           [Exited EmptyString EmptyString] "/dev/x" "swap" "mkswap"
           "/sbin/mkswap" "swap0" (Some "1234") true 15
           eq_refl eq_refl eq_refl eq_refl).
Defined.

(** X11: [mkfs] asks for the release codename exactly when [force] is
    requested and the path, the fstype and the tool have passed their
    checks; a call without [force] never asks for it. *)
Theorem mkfs_release_lookup (W : Type) (env : Env W) (w : W)
    (path : option string) (fstype : string) (strict : bool)
    (label uuid : option string) (force : bool) :
  existsb is_lsb_release
    (events (mkfs env path fstype strict label uuid force) w)
  = force
    && match path with
       | Some p =>
           path_exists env p w
           && match get mkfs_commands fstype with
              | Some c =>
                  match which env c w with
                  | Some _ => true
                  | None => false
                  end
              | None => false
              end
       | None => false
       end.
Proof.
  destruct path as [p|]; [|now rewrite andb_false_r].
  destruct (path_exists env p w) eqn:Hp;
    [|unfold events;
      rewrite (mkfs_run_missing_path env w p fstype strict label uuid
                 force Hp); now rewrite andb_false_r].
  destruct (get mkfs_commands fstype) as [c|] eqn:Hc;
    [|unfold events;
      rewrite (mkfs_run_unsupported env w p fstype strict label uuid
                 force Hp Hc); now rewrite andb_false_r].
  destruct (which env c w) as [t|] eqn:Ht;
    [|unfold events;
      rewrite (mkfs_run_no_tool env w p fstype strict label uuid
                 force Hp Hc Ht); now rewrite andb_false_r].
  rewrite (mkfs_events_run env w p fstype strict label uuid force Hp Hc Ht).
  unfold mkfs_prelude. rewrite !existsb_app.
  destruct force, (mkfs_argv _ _ _ _ _ _ _ _); reflexivity.
Qed.

(* ================================================================== *)
(** * [mkfs_from_config] *)
(* ================================================================== *)

(** X12: a configuration without [fstype] makes [mkfs_from_config] raise
    [ValueError] before anything else: the path is not even tested, so the
    missing fstype is what is reported for a path that is [None] or does
    not exist too. *)
Theorem mkfs_from_config_no_fstype (W : Type) (env : Env W) (w : W)
    (path : option string) (info : dict string) (strict : bool) :
  get info "fstype" = None ->
  run (mkfs_from_config env path info strict) w
  = (inl (ValueError "fstype must be specified"),
     {| world := w; trace := [] |}).
Proof.
  intros H. unfold run, mkfs_from_config. rewrite H. reflexivity.
Qed.

Lemma mkfs_from_config_no_fstype_witness :
  get [("label", "root"); ("uuid", "1234")] "fstype" = None
  /\ run (mkfs_from_config (scripted [] [] "xenial") None
            [("label", "root"); ("uuid", "1234")] true)
         [Exited EmptyString EmptyString]
     = (inl (ValueError "fstype must be specified"),
        {| world := [Exited EmptyString EmptyString]; trace := [] |}).
Proof.
  split; [reflexivity|].
  apply (@mkfs_from_config_no_fstype _ (scripted [] [] "xenial")
           [Exited EmptyString EmptyString] None
           [("label", "root"); ("uuid", "1234")] true).
  reflexivity.
Defined.

(** X13: [mkfs_from_config] always forces.  Without [strict], for a
    configuration whose fstype is accepted and has a family with a force
    token, and away from btrfs on [precise], the one process it runs has
    that token right after the tool name, whether or not the configuration
    has a label or a uuid. *)
Theorem mkfs_from_config_force_token (W : Type) (env : Env W) (w : W)
    (p fstype c t : string) (info : dict string) :
  get info "fstype" = Some fstype ->
  path_exists env p w = true ->
  get mkfs_commands fstype = Some c ->
  which env c w = Some t ->
  supports "force" (get_default specific_to_family fstype fstype) = true ->
  String.eqb (lsb_codename env w) "precise" && String.eqb fstype "btrfs"
  = false ->
  exists tok rest,
    get_flag_mapping "force" (get_default specific_to_family fstype fstype)
      None false = inr [tok]
    /\ commands (events (mkfs_from_config env (Some p) info false) w)
       = [c :: tok :: rest]
    /\ In (EvLsbRelease (lsb_codename env w))
          (events (mkfs_from_config env (Some p) info false) w).
Proof.
  intros Hf Hp Hc Ht Hsup Hcode.
  destruct (get_flag_mapping_supported "force" _ Hsup) as [tok Htok].
  destruct (@mkfs_argv_nonstrict (lsb_codename env w) p fstype c
              (get info "label") (get info "uuid") false Hc) as [cmd E].
  destruct (mkfs_argv_plain_head _ _ _ _ _ _ _ E) as [rest ->].
  exists tok, rest. split; [apply (Htok None false)|].
  assert (Hrun : events (mkfs_from_config env (Some p) info false) w
                 = events (mkfs env (Some p) fstype false (get info "label")
                                (get info "uuid") true) w).
  { unfold events, run, mkfs_from_config. now rewrite Hf. }
  rewrite Hrun. split.
  - rewrite (mkfs_commands_run env w p fstype false _ _ true Hp Hc Ht).
    rewrite mkfs_argv_force, Hcode, (Htok None false), E. reflexivity.
  - rewrite (mkfs_events_run env w p fstype false _ _ true Hp Hc Ht).
    apply in_or_app. left. simpl. auto.
Qed.

Lemma mkfs_from_config_force_token_witness :
  let env := scripted ["/dev/x"] ["mkfs.ext3"] "precise" in
  let w := [Exited EmptyString EmptyString] in
  let info := [("fstype", "ext3"); ("label", "root")] in
  exists tok rest,
    get_flag_mapping "force" "ext" None false = inr [tok]
    /\ commands (events (mkfs_from_config env (Some "/dev/x") info false) w)
       = ["mkfs.ext3" :: tok :: rest]
    /\ In (EvLsbRelease "precise")
          (events (mkfs_from_config env (Some "/dev/x") info false) w).
Proof.
  exact (@mkfs_from_config_force_token _
           (scripted ["/dev/x"] ["mkfs.ext3"] "precise")
           [Exited EmptyString EmptyString] "/dev/x" "ext3" "mkfs.ext3"
           "/sbin/mkfs.ext3" [("fstype", "ext3"); ("label", "root")]
           eq_refl eq_refl eq_refl eq_refl eq_refl eq_refl).
Defined.

(* ================================================================== *)
(** * [curtin/gpg.py]: the three helpers and the fetched key *)
(* ================================================================== *)

(** X14: [gpg_export_armour] never raises.  It runs the export once and
    returns the captured output, or [None] exactly when the process run
    failed, and then it has logged one debug line. *)
Theorem gpg_export_armour_run (W : Type) (env : Env W) (w w' : W)
    (key : string) (r : completed) :
  subp env (export_cmd key) w = (r, w') ->
  run (gpg_export_armour env key) w
  = (inr match r with
         | Exited out _ => Some out
         | Failed _ => None
         end,
     {| world := w';
        trace :=
          EvSubp (export_cmd key) r
          :: match r with
             | Exited _ _ => []
             | Failed error =>
                 [EvLog "debug"
                    ("Failed to export armoured key " ++ dquote ++ "%s"
                     ++ dquote ++ ": %s")
                    [VStr key; VStr error]]
             end |}).
Proof.
  intros H. gpg_unfold. rewrite H. destruct r; reflexivity.
Qed.

Lemma gpg_export_armour_run_witness :
  run (gpg_export_armour (scripted [] [] "xenial") "K")
      [Failed "exit 2"; Exited "KEY" EmptyString]
  = (inr None,
     {| world := [Exited "KEY" EmptyString];
        trace :=
          [EvSubp (export_cmd "K") (Failed "exit 2");
           EvLog "debug"
             ("Failed to export armoured key " ++ dquote ++ "%s"
              ++ dquote ++ ": %s")
             [VStr "K"; VStr "exit 2"]] |}).
Proof.
  exact (@gpg_export_armour_run _ (scripted [] [] "xenial")
           [Failed "exit 2"; Exited "KEY" EmptyString]
           [Exited "KEY" EmptyString] "K" (Failed "exit 2") eq_refl).
Defined.

(** X15: [gpg_delete_key] never raises: whatever the process run gives, it
    returns, having run the delete exactly once; a failure is only a
    warning in the log. *)
Theorem gpg_delete_key_returns (W : Type) (env : Env W) (w : W)
    (key : string) :
  outcome (gpg_delete_key env key) w = inr tt
  /\ commands (events (gpg_delete_key env key) w) = [delete_cmd key]
  /\ world (snd (run (gpg_delete_key env key) w))
     = snd (subp env (delete_cmd key) w)
  /\ (existsb (fun ev => match ev with EvLog _ _ _ => true | _ => false end)
        (events (gpg_delete_key env key) w)
      = negb (exited (fst (subp env (delete_cmd key) w)))).
Proof.
  gpg_unfold. destruct (subp env _ w) as [[out err|e] w'];
    repeat split.
Qed.

(** X16: [gpg_recv_key] runs the receive once, against the keyserver it was
    given, and returns when the process exits normally; when it fails the
    error is the [ValueError] naming key, keyserver and process error,
    never the [ProcessExecutionError] itself. *)
Theorem gpg_recv_key_run (W : Type) (env : Env W) (w w' : W)
    (key keyserver : string) (r : completed) :
  subp env (recv_cmd key keyserver) w = (r, w') ->
  outcome (gpg_recv_key env key keyserver) w
  = match r with
    | Exited _ _ => inr tt
    | Failed error =>
        inl (ValueError
               ("Failed to import key " ++ dquote ++ key ++ dquote
                ++ " from server " ++ dquote ++ keyserver ++ dquote
                ++ " - error " ++ error))
    end
  /\ commands (events (gpg_recv_key env key keyserver) w)
     = [["gpg"; "--keyserver"; keyserver; "--recv"; key]]
  /\ world (snd (run (gpg_recv_key env key keyserver) w)) = w'.
Proof.
  intros H. gpg_unfold. rewrite H.
  destruct r; gpg_simpl; repeat split.
Qed.

Lemma gpg_recv_key_run_witness :
  outcome (gpg_recv_key (scripted [] [] "xenial") "K" "keys.example.org")
          [Exited EmptyString EmptyString]
  = inr tt
  /\ commands (events (gpg_recv_key (scripted [] [] "xenial") "K"
                         "keys.example.org")
                      [Exited EmptyString EmptyString])
     = [["gpg"; "--keyserver"; "keys.example.org"; "--recv"; "K"]]
  /\ world (snd (run (gpg_recv_key (scripted [] [] "xenial") "K"
                        "keys.example.org")
                     [Exited EmptyString EmptyString])) = [].
Proof.
  exact (@gpg_recv_key_run _ (scripted [] [] "xenial")
           [Exited EmptyString EmptyString] [] "K" "keys.example.org"
           (Exited EmptyString EmptyString) eq_refl).
Defined.

(** X17: the fetch path of [gpg_getkeybyid]: when the first export gave
    nothing, the receive run exits normally and the second export run
    gives a text, the text is returned without its trailing newlines and
    the key has been deleted again, whether or not the delete run
    succeeded; the world is the one the delete run left. *)
Theorem gpg_getkeybyid_fetched (W : Type) (env : Env W)
    (w w1 w2 w3 w4 : W) (keyid keyserver o2 e2 out err : string)
    (r1 r4 : completed) :
  subp env (export_cmd keyid) w = (r1, w1) ->
  absent r1 = true ->
  subp env (recv_cmd keyid keyserver) w1 = (Exited o2 e2, w2) ->
  subp env (export_cmd keyid) w2 = (Exited out err, w3) ->
  subp env (delete_cmd keyid) w3 = (r4, w4) ->
  let m := gpg_getkeybyid env keyid keyserver in
  outcome m w = inr (rstrip nl out)
  /\ commands (events m w)
     = [export_cmd keyid; recv_cmd keyid keyserver; export_cmd keyid;
        delete_cmd keyid]
  /\ world (snd (run m w)) = w4.
Proof.
  intros H1 Ha H2 H3 H4. cbv zeta.
  gpg_unfold. gpg_answer H1.
  (destruct r1 as [[|a o1] e1|e1]; [|discriminate Ha|]);
    gpg_simpl; gpg_answer H2; gpg_answer H3; gpg_answer H4;
    destruct r4; repeat split.
Qed.

Lemma gpg_getkeybyid_fetched_witness :
  let env := scripted [] [] "xenial" in
  let w := [Failed "no key"; Exited EmptyString EmptyString;
            Exited ("KEY" ++ nl) EmptyString; Failed "cannot delete"] in
  let m := gpg_getkeybyid env "K" default_keyserver in
  outcome m w = inr (rstrip nl ("KEY" ++ nl))
  /\ commands (events m w)
     = [export_cmd "K"; recv_cmd "K" default_keyserver; export_cmd "K";
        delete_cmd "K"]
  /\ world (snd (run m w)) = [].
Proof.
  exact (@gpg_getkeybyid_fetched _ (scripted [] [] "xenial")
           [Failed "no key"; Exited EmptyString EmptyString;
            Exited ("KEY" ++ nl) EmptyString; Failed "cannot delete"]
           [Exited EmptyString EmptyString;
            Exited ("KEY" ++ nl) EmptyString; Failed "cannot delete"]
           [Exited ("KEY" ++ nl) EmptyString; Failed "cannot delete"]
           [Failed "cannot delete"] []
           "K" default_keyserver EmptyString EmptyString ("KEY" ++ nl)
           EmptyString (Failed "no key") (Failed "cannot delete")
           eq_refl eq_refl eq_refl eq_refl eq_refl).
Defined.

(** X18: [gpg_getkeybyid] never lets a [ProcessExecutionError] through:
    when it raises, the error is the [ValueError] of a failed receive or
    the [AttributeError] of [rstrip] on [None]. *)
Theorem gpg_getkeybyid_errors (W : Type) (env : Env W) (w : W)
    (keyid keyserver : string) (e : exn) :
  outcome (gpg_getkeybyid env keyid keyserver) w = inl e ->
  (exists error,
      e = ValueError
            ("Failed to import key " ++ dquote ++ keyid ++ dquote
             ++ " from server " ++ dquote ++ keyserver ++ dquote
             ++ " - error " ++ error)
      /\ In (EvSubp (recv_cmd keyid keyserver) (Failed error))
            (events (gpg_getkeybyid env keyid keyserver) w))
  \/ e = AttributeError "'NoneType' object has no attribute 'rstrip'".
Proof.
  gpg_unfold.
  destruct (subp env _ w) as [[[|a o1] e1|e1] w1]; gpg_simpl;
    gpg_rest; intros [= <-];
    first [right; reflexivity
          | left; eexists; split; [reflexivity|simpl; eauto 10]].
Qed.

Lemma gpg_getkeybyid_errors_witness :
  let env := scripted [] [] "xenial" in
  let w := [Exited EmptyString EmptyString; Failed "timeout";
            Failed "cannot delete"] in
  (exists error,
      ValueError
        ("Failed to import key " ++ dquote ++ "K" ++ dquote
         ++ " from server " ++ dquote ++ "ks" ++ dquote
         ++ " - error " ++ "timeout")
      = ValueError
          ("Failed to import key " ++ dquote ++ "K" ++ dquote
           ++ " from server " ++ dquote ++ "ks" ++ dquote
           ++ " - error " ++ error)
      /\ In (EvSubp (recv_cmd "K" "ks") (Failed error))
            (events (gpg_getkeybyid env "K" "ks") w))
  \/ ValueError
       ("Failed to import key " ++ dquote ++ "K" ++ dquote
        ++ " from server " ++ dquote ++ "ks" ++ dquote
        ++ " - error " ++ "timeout")
     = AttributeError "'NoneType' object has no attribute 'rstrip'".
Proof.
  exact (@gpg_getkeybyid_errors _ (scripted [] [] "xenial")
           [Exited EmptyString EmptyString; Failed "timeout";
            Failed "cannot delete"] "K" "ks"
           (ValueError
              ("Failed to import key " ++ dquote ++ "K" ++ dquote
               ++ " from server " ++ dquote ++ "ks" ++ dquote
               ++ " - error " ++ "timeout"))
           eq_refl).
Defined.

(* ================================================================== *)
(** * [mkfs]: the errors it can raise *)
(* ================================================================== *)

Lemma get_flag_mapping_table_error (flag_name fs_family : string)
    (param : option string) (strict : bool) (e : exn) :
  get family_flag_mappings flag_name <> None ->
  get_flag_mapping flag_name fs_family param strict = inl e ->
  strict = true /\ e = TypeError "not enough arguments for format string".
Proof.
  unfold get_flag_mapping.
  destruct (get family_flag_mappings flag_name) as [m|]; [|congruence].
  intros _. destruct (get m fs_family); [destruct param; discriminate|].
  destruct strict; [|discriminate]. simpl. intros [= <-]. now split.
Qed.

Lemma mkfs_argv_errors (codename p fstype c : string) (strict : bool)
    (label uuid : option string) (force : bool) (e : exn) :
  get mkfs_commands fstype = Some c ->
  mkfs_argv codename p fstype c strict label uuid force = inl e ->
  strict = true
  /\ (e = TypeError "not enough arguments for format string"
      \/ exists limit,
           get label_length_limits
             (get_default specific_to_family fstype fstype) = Some limit
           /\ e = ValueError
                    ("length of fs label for '" ++ p ++ "' exceeds max "
                     ++ blanks33 ++ "allowed for fstype '" ++ fstype
                     ++ "'. max is '" ++ str (VInt limit) ++ "'")).
Proof.
  intros Hc H.
  destruct strict;
    [|destruct (@mkfs_argv_nonstrict codename p fstype c label uuid force Hc)
        as [cmd E]; congruence].
  split; [reflexivity|].
  destruct (supported_fstype_has_limit _ Hc) as [limit Hlim].
  revert H. unfold mkfs_argv.
  set (fam := get_default specific_to_family fstype fstype) in *.
  rewrite Hlim.
  argv_cases;
    try (rewrite format_label_too_long in *; cbn [and_then]; argv_cases);
    intros [= <-];
    try match goal with
      | H : inr _ = inl _ |- _ => discriminate H
      end;
    try (right; exists limit; split; [reflexivity|congruence]);
    left;
    match goal with
    | H : get_flag_mapping _ _ _ _ = inl ?e |- ?e = _ =>
        refine (proj2 (@get_flag_mapping_table_error _ _ _ _ _ _ H));
        discriminate
    end.
Qed.

(** X19: the errors of [mkfs].  When [mkfs] raises, the error is one of:
    the [ValueError] for the path [None], for a path that does not exist,
    for an fstype that is not accepted, or for a tool that is not found;
    in strict mode only, the [TypeError] of a flag the family has no token
    for, or the [ValueError] of a label longer than the limit; or the
    [ProcessExecutionError] of the tool.  A non-strict call whose path,
    fstype and tool are in order can only fail in the tool. *)
Theorem mkfs_errors (W : Type) (env : Env W) (w : W)
    (path : option string) (fstype : string) (strict : bool)
    (label uuid : option string) (force : bool) (e : exn) :
  outcome (mkfs env path fstype strict label uuid force) w = inl e ->
  (path = None /\ e = ValueError "invalid block dev path 'None'")
  \/ (exists p,
         path = Some p /\ path_exists env p w = false
         /\ e = ValueError ("'" ++ p ++ "': no such file or directory"))
  \/ (get mkfs_commands fstype = None
      /\ e = ValueError ("unsupported fs type '" ++ fstype ++ "'"))
  \/ (exists c,
         get mkfs_commands fstype = Some c /\ which env c w = None
         /\ e = ValueError ("need '" ++ c ++ "' but it could not be found"))
  \/ (strict = true
      /\ e = TypeError "not enough arguments for format string")
  \/ (strict = true
      /\ exists p limit,
           path = Some p
           /\ get label_length_limits
                (get_default specific_to_family fstype fstype) = Some limit
           /\ e = ValueError
                    ("length of fs label for '" ++ p ++ "' exceeds max "
                     ++ blanks33 ++ "allowed for fstype '" ++ fstype
                     ++ "'. max is '" ++ str (VInt limit) ++ "'"))
  \/ (exists d, e = ProcessExecutionError d).
Proof.
  unfold outcome.
  destruct path as [p|];
    [|rewrite mkfs_run_no_path; intros [= <-]; left; now split].
  destruct (path_exists env p w) eqn:Hp;
    [|rewrite (mkfs_run_missing_path env w p fstype strict label uuid
                 force Hp); intros [= <-]; right; left; exists p;
      repeat split; auto].
  destruct (get mkfs_commands fstype) as [c|] eqn:Hc;
    [|rewrite (mkfs_run_unsupported env w p fstype strict label uuid
                 force Hp Hc); intros [= <-]; right; right; left;
      now split].
  destruct (which env c w) as [t|] eqn:Ht;
    [|rewrite (mkfs_run_no_tool env w p fstype strict label uuid
                 force Hp Hc Ht); intros [= <-]; right; right; right; left;
      exists c; repeat split; auto].
  rewrite (mkfs_run env w p fstype strict label uuid force Hp Hc Ht).
  destruct (mkfs_argv (lsb_codename env w) p fstype c strict label uuid force)
    as [e'|cmd] eqn:E; cbn [fst].
  - intros [= <-].
    destruct (@mkfs_argv_errors _ _ _ _ _ _ _ _ _ Hc E)
      as [Hs [He|(limit & Hlim & He)]].
    + do 4 right. left. now split.
    + do 5 right. left. split; [exact Hs|]. exists p, limit. repeat split; auto.
  - destruct (subp env cmd w) as [[out err|d] w']; cbn [fst subp_outcome];
      [discriminate|]. intros [= <-]. do 6 right. now exists d.
Qed.

Lemma mkfs_errors_witness :
  let env := scripted ["/dev/x"] ["mkfs.fat"] "xenial" in
  let w := [Exited EmptyString EmptyString] in
  let e := TypeError "not enough arguments for format string" in
  outcome (mkfs env (Some "/dev/x") "fat16" true None (Some "1234") false) w
  = inl e
  /\ (Some "/dev/x" = None /\ e = ValueError "invalid block dev path 'None'"
      \/ (exists p,
             Some "/dev/x" = Some p /\ path_exists env p w = false
             /\ e = ValueError ("'" ++ p ++ "': no such file or directory"))
      \/ (get mkfs_commands "fat16" = None
          /\ e = ValueError ("unsupported fs type '" ++ "fat16" ++ "'"))
      \/ (exists c,
             get mkfs_commands "fat16" = Some c /\ which env c w = None
             /\ e = ValueError
                      ("need '" ++ c ++ "' but it could not be found"))
      \/ (true = true
          /\ e = TypeError "not enough arguments for format string")
      \/ (true = true
          /\ exists p limit,
               Some "/dev/x" = Some p
               /\ get label_length_limits
                    (get_default specific_to_family "fat16" "fat16")
                  = Some limit
               /\ e = ValueError
                        ("length of fs label for '" ++ p ++ "' exceeds max "
                         ++ blanks33 ++ "allowed for fstype '" ++ "fat16"
                         ++ "'. max is '" ++ str (VInt limit) ++ "'"))
      \/ (exists d, e = ProcessExecutionError d)).
Proof.
  split; [reflexivity|].
  apply (@mkfs_errors _ (scripted ["/dev/x"] ["mkfs.fat"] "xenial")
           [Exited EmptyString EmptyString] (Some "/dev/x") "fat16" true
           None (Some "1234") false
           (TypeError "not enough arguments for format string")).
  reflexivity.
Defined.


(* ================================================================== *)
(** * [mkfs]: the force flag *)
(* ================================================================== *)

(** Without [force], the assembly of the command of an accepted fstype
    raises exactly in strict mode, for a label longer than the limit or a
    uuid the family has no token for. *)
Lemma mkfs_argv_plain_cases (codename p fstype c : string) (strict : bool)
    (label uuid : option string) :
  get mkfs_commands fstype = Some c ->
  let fs_family := get_default specific_to_family fstype fstype in
  if strict
     && (match label, get label_length_limits fs_family with
         | Some l, Some limit => Nat.ltb limit (String.length l)
         | _, _ => false
         end
         || match uuid with
            | Some _ => negb (supports "uuid" fs_family)
            | None => false
            end)
  then exists e,
         mkfs_argv codename p fstype c strict label uuid false = inl e
  else exists mid,
         mkfs_argv codename p fstype c strict label uuid false
         = inr (c :: mid ++ [p])%list.
Proof.
  intros Hc. cbv zeta.
  destruct (supported_fstype_has_limit _ Hc) as [limit Hlim].
  set (fam := get_default specific_to_family fstype fstype) in *.
  rewrite Hlim.
  assert (Hplain : exists mid,
             mkfs_argv codename p fstype c false label uuid false
             = inr (c :: mid ++ [p])%list).
  { destruct (@mkfs_argv_nonstrict codename p fstype c label uuid false Hc)
      as [cmd E].
    destruct (mkfs_argv_shape _ _ _ _ _ _ _ _ E) as [mid ->]. eauto. }
  destruct strict; cbn [andb]; [|exact Hplain].
  destruct (match label with
            | Some l => Nat.ltb limit (String.length l)
            | None => false
            end) eqn:Hlong; cbn [orb].
  - destruct label as [l|]; [|discriminate Hlong].
    apply Nat.ltb_lt in Hlong.
    rewrite (@mkfs_argv_strict_label codename p fstype c l uuid false limit
               Hlim Hlong); [eauto|discriminate].
  - destruct (match uuid with
              | Some _ => negb (supports "uuid" fam)
              | None => false
              end) eqn:Huuid.
    + destruct uuid as [u|]; [|discriminate Huuid].
      apply negb_true_iff in Huuid.
      destruct (@get_flag_mapping_unsupported "uuid" fam (Some u))
        as [_ Hraise]; [discriminate|exact Huuid|].
      unfold mkfs_argv. fold fam. rewrite Hlim, Hraise. cbn [and_then].
      destruct label as [l|]; [|cbn [and_then]; eauto].
      rewrite Hlong. cbn [and_then].
      destruct (get_flag_mapping_supported "label" fam
                  (limit_supports_label fam Hlim)) as [tok Htok].
      rewrite (Htok (Some l) true). cbn [and_then]. eauto.
    + rewrite (@mkfs_argv_strict_irrelevant codename p fstype c label uuid
                 false); [exact Hplain|discriminate| |].
      * intros Hu. destruct uuid as [u|]; [|congruence].
        now apply negb_false_iff in Huuid.
      * intros l limit' -> Hlim'. fold fam in Hlim'.
        rewrite Hlim in Hlim'. injection Hlim' as <-.
        now apply Nat.ltb_ge in Hlong.
Qed.

(** The command and the errors of a [btrfs] call without [force]. *)
Lemma mkfs_argv_btrfs_plain (codename p : string) (strict : bool)
    (label uuid : option string) :
  mkfs_argv codename p "btrfs" "mkfs.btrfs" strict label uuid false
  = if strict
       && match label with
          | Some l => Nat.ltb 256 (String.length l)
          | None => false
          end
    then inl (ValueError
                ("length of fs label for '" ++ p ++ "' exceeds max "
                 ++ blanks33
                 ++ "allowed for fstype 'btrfs'. max is '256'"))
    else inr ("mkfs.btrfs"
              :: match label with
                 | Some l =>
                     ["--label";
                      if Nat.ltb 256 (String.length l) then slice_to 256 l
                      else l]
                 | None => []
                 end
              ++ match uuid with
                 | Some u => ["--uuid"; u]
                 | None => []
                 end
              ++ [p])%list.
Proof.
  unfold mkfs_argv.
  change (get_default specific_to_family "btrfs" "btrfs") with "btrfs".
  change (get label_length_limits "btrfs") with (Some 256).
  destruct label as [l|];
    try destruct (Nat.ltb 256 (String.length l));
    destruct strict, uuid as [u|]; reflexivity.
Qed.

(** C4: with [force] requested, once the path, the fstype and the tool are
    in order.  On the release [precise] and for [btrfs], strict or not, no
    force token is put in the command and no error is raised for it: the
    call runs [mkfs.btrfs] with the label and uuid flags and the path only
    (or raises the label-length error in strict mode), exactly as the call
    without [force] does.  In every other case the force flag is resolved
    with [get_flag_mapping] for the family: if that raises, [mkfs] raises
    the same and runs nothing; otherwise, unless a later step raises
    (strict mode with a label longer than the limit or a uuid the family
    has no token for, where the call without [force] raises the same), the
    one process run has the resolved tokens right after the tool name,
    followed by what the call without [force] puts there, the path last. *)
Theorem mkfs_force_flag (W : Type) (env : Env W) (w : W)
    (p fstype c t : string) (strict : bool) (label uuid : option string) :
  path_exists env p w = true ->
  get mkfs_commands fstype = Some c ->
  which env c w = Some t ->
  let fs_family := get_default specific_to_family fstype fstype in
  let plain := mkfs env (Some p) fstype strict label uuid false in
  let forced := mkfs env (Some p) fstype strict label uuid true in
  if String.eqb (lsb_codename env w) "precise" && String.eqb fstype "btrfs"
  then
    outcome forced w = outcome plain w
    /\ commands (events forced w) = commands (events plain w)
    /\ world (snd (run forced w)) = world (snd (run plain w))
    /\ let cmd :=
         ("mkfs.btrfs"
          :: match label with
             | Some l =>
                 ["--label";
                  if Nat.ltb 256 (String.length l) then slice_to 256 l
                  else l]
             | None => []
             end
          ++ match uuid with
             | Some u => ["--uuid"; u]
             | None => []
             end
          ++ [p])%list in
       if strict
          && match label with
             | Some l => Nat.ltb 256 (String.length l)
             | None => false
             end
       then
         commands (events forced w) = []
         /\ outcome forced w
            = inl (ValueError
                     ("length of fs label for '" ++ p ++ "' exceeds max "
                      ++ blanks33
                      ++ "allowed for fstype 'btrfs'. max is '256'"))
       else
         commands (events forced w) = [cmd]
         /\ outcome forced w = subp_outcome (fst (subp env cmd w))
  else
    match get_flag_mapping "force" fs_family None strict with
    | inl e => outcome forced w = inl e /\ commands (events forced w) = []
    | inr flag =>
        if strict
           && (match label, get label_length_limits fs_family with
               | Some l, Some limit => Nat.ltb limit (String.length l)
               | _, _ => false
               end
               || match uuid with
                  | Some _ => negb (supports "uuid" fs_family)
                  | None => false
                  end)
        then
          commands (events forced w) = []
          /\ commands (events plain w) = []
          /\ exists e, outcome forced w = inl e /\ outcome plain w = inl e
        else
          exists mid,
            commands (events plain w) = [(c :: mid ++ [p])%list]
            /\ commands (events forced w) = [(c :: flag ++ mid ++ [p])%list]
            /\ outcome forced w
               = subp_outcome
                   (fst (subp env (c :: flag ++ mid ++ [p])%list w))
    end.
Proof.
  intros Hp Hc Ht. cbv zeta.
  rewrite !(mkfs_outcome_run env w p fstype strict label uuid _ Hp Hc Ht).
  rewrite !(mkfs_commands_run env w p fstype strict label uuid _ Hp Hc Ht).
  rewrite !(mkfs_world_run env w p fstype strict label uuid _ Hp Hc Ht).
  rewrite mkfs_argv_force.
  destruct (String.eqb (lsb_codename env w) "precise"
            && String.eqb fstype "btrfs") eqn:Hlegacy.
  - apply andb_true_iff in Hlegacy. destruct Hlegacy as [_ Hb].
    apply String.eqb_eq in Hb. subst fstype.
    injection Hc as <-.
    split; [reflexivity|]. split; [reflexivity|]. split; [reflexivity|].
    rewrite mkfs_argv_btrfs_plain.
    destruct (strict && match label with
                        | Some l => Nat.ltb 256 (String.length l)
                        | None => false
                        end); split; reflexivity.
  - destruct (get_flag_mapping "force" _ None strict) as [e|flag];
      cbn [and_then]; [split; reflexivity|].
    pose proof (@mkfs_argv_plain_cases (lsb_codename env w) p fstype c strict
                  label uuid Hc) as Hplain. cbv zeta in Hplain.
    destruct (strict
              && (match label,
                        get label_length_limits
                          (get_default specific_to_family fstype fstype) with
                  | Some l, Some limit => Nat.ltb limit (String.length l)
                  | _, _ => false
                  end
                  || match uuid with
                     | Some _ =>
                         negb (supports "uuid"
                                 (get_default specific_to_family fstype
                                    fstype))
                     | None => false
                     end)).
    + destruct Hplain as [e ->]. cbn [and_then].
      split; [reflexivity|]. split; [reflexivity|]. exists e. now split.
    + destruct Hplain as [mid ->]. cbn [and_then tl]. exists mid.
      repeat split.
Qed.

Lemma mkfs_force_flag_witness :
  (let env := scripted ["/dev/x"] ["mkfs.btrfs"] "precise" in
   let w := [Exited EmptyString EmptyString] in
   let forced :=
     mkfs env (Some "/dev/x") "btrfs" true (Some "data") None true in
   commands (events forced w)
   = [["mkfs.btrfs"; "--label"; "data"; "/dev/x"]]
   /\ outcome forced w = inr tt)
  /\ (let env := scripted ["/dev/x"] ["mkfs.ext4"] "precise" in
      let w := [Exited EmptyString EmptyString] in
      let plain :=
        mkfs env (Some "/dev/x") "ext4" true (Some "root") (Some "1234")
             false in
      let forced :=
        mkfs env (Some "/dev/x") "ext4" true (Some "root") (Some "1234")
             true in
      exists mid,
        commands (events plain w) = [("mkfs.ext4" :: mid ++ ["/dev/x"])%list]
        /\ commands (events forced w)
           = [("mkfs.ext4" :: ["-F"] ++ mid ++ ["/dev/x"])%list]
        /\ outcome forced w
           = subp_outcome
               (fst (subp env ("mkfs.ext4" :: ["-F"] ++ mid ++ ["/dev/x"])%list
                          w))).
Proof.
  split.
  - exact (proj2 (proj2 (proj2
             (@mkfs_force_flag _
                (scripted ["/dev/x"] ["mkfs.btrfs"] "precise")
                [Exited EmptyString EmptyString] "/dev/x" "btrfs"
                "mkfs.btrfs" "/sbin/mkfs.btrfs" true (Some "data") None
                eq_refl eq_refl eq_refl)))).
  - exact (@mkfs_force_flag _
             (scripted ["/dev/x"] ["mkfs.ext4"] "precise")
             [Exited EmptyString EmptyString] "/dev/x" "ext4" "mkfs.ext4"
             "/sbin/mkfs.ext4" true (Some "root") (Some "1234")
             eq_refl eq_refl eq_refl).
Defined.
